(** * Verification of the Kubernetes pod monitor (k8s_monitor.py)

    A shallow embedding of [KubernetesMonitor]: the pod listing parser, the
    pod health check and the service connectivity probe, with the theorems
    that settle the specification's statements about them.

    Modelling conventions.
    - A Python [str] is a Rocq [string]; a character is a code point below
      256.  Python [int] is [Z].  Wall-clock readings are rationals ([Q]).
    - The outside world (kubectl, the HTTP client, sockets) answers through an
      environment record [Env]; what the program does to the outside world is
      recorded, in order, in the [trace] of the [World] that every
      effectful function threads.
    - A Python exception is a value [exn] carrying the names of the classes it
      is an instance of; [except C] is [isinstance e C].
    - What is printed is not modelled (the texts hold characters beyond
      code point 255): a [print] is an event without content, and it may
      raise, as it does on a console that cannot encode the text. *)

From Stdlib Require Import String Ascii List ZArith QArith Bool Lia DecimalString.
Import ListNotations.

Local Open Scope string_scope.
Local Open Scope Z_scope.

(* ===================================================================== *)
(** * Python text primitives *)
(* ===================================================================== *)

Module PyStr.

(** [str.isspace] on one character, for code points below 256: TAB, LF, VT,
    FF, CR, the separators FS GS RS US, SPACE, NEL and NO-BREAK SPACE. *)
Definition is_space (c : ascii) : bool :=
  let n := N_of_ascii c in
  (((9 <=? n)%N && (n <=? 13)%N) || ((28 <=? n)%N && (n <=? 32)%N)
   || (n =? 133)%N || (n =? 160)%N)%bool.

(** [s.lstrip()], [s.rstrip()], [s.strip()]. *)
Fixpoint lstrip (s : string) : string :=
  match s with
  | EmptyString => EmptyString
  | String c r => if is_space c then lstrip r else s
  end.

Fixpoint rstrip (s : string) : string :=
  match s with
  | EmptyString => EmptyString
  | String c r =>
      match rstrip r with
      | EmptyString => if is_space c then EmptyString else String c EmptyString
      | r' => String c r'
      end
  end.

Definition strip (s : string) : string := lstrip (rstrip s).

(** Truth value of a string: non-empty. *)
Definition truthy (s : string) : bool :=
  match s with EmptyString => false | String _ _ => true end.

(** [s.split(sep)] for a one-character separator: one more piece than there
    are separators, empty pieces kept. *)
Fixpoint split_on (sep : ascii) (s : string) : list string :=
  match s with
  | EmptyString => [EmptyString]
  | String c r =>
      if Ascii.eqb c sep then EmptyString :: split_on sep r
      else match split_on sep r with
           | piece :: pieces => String c piece :: pieces
           | [] => [String c EmptyString]
           end
  end.

(** [s.split()]: maximal runs of non-whitespace characters. *)
Fixpoint split (s : string) : list string :=
  match s with
  | EmptyString => []
  | String c r =>
      if is_space c then split r
      else match r with
           | EmptyString => [String c EmptyString]
           | String c' _ =>
               if is_space c' then String c EmptyString :: split r
               else match split r with
                    | word :: words => String c word :: words
                    | [] => [String c EmptyString]
                    end
           end
  end.

(** ** [int(s)]

    Base 10 conversion of a string: surrounding whitespace is skipped, one
    optional sign, then decimal digits, where single underscores may stand
    between digits.  Below code point 256 the only decimal digits are
    [0]..[9].  CPython skips the C whitespace characters and the non-ASCII
    Unicode spaces here.  [None] stands for [ValueError]. *)

Definition is_int_space (c : ascii) : bool :=
  let n := N_of_ascii c in
  (((9 <=? n)%N && (n <=? 13)%N) || (n =? 32)%N
   || (n =? 133)%N || (n =? 160)%N)%bool.

Fixpoint int_lstrip (s : string) : string :=
  match s with
  | EmptyString => EmptyString
  | String c r => if is_int_space c then int_lstrip r else s
  end.

Fixpoint int_rstrip (s : string) : string :=
  match s with
  | EmptyString => EmptyString
  | String c r =>
      match int_rstrip r with
      | EmptyString => if is_int_space c then EmptyString else String c EmptyString
      | r' => String c r'
      end
  end.

Definition is_digit (c : ascii) : bool :=
  let n := N_of_ascii c in ((48 <=? n)%N && (n <=? 57)%N)%bool.

Definition digit_val (c : ascii) : Z := Z.of_N (N_of_ascii c) - 48.

(** The interpreter's limit on the number of digits of a converted string
    ([sys.get_int_max_str_digits()], 4300 unless reconfigured). *)
Definition int_max_str_digits : Z := 4300.

(** Scan of the digit part.  [after_us] says that the previous character was
    an underscore (or that no character was read yet: a leading underscore
    and an empty digit part are errors, as a trailing or doubled underscore
    is).  Returns the value and the number of digits read. *)
Fixpoint scan_digits (s : string) (after_us : bool) (acc : Z) (digits : Z)
  : option (Z * Z) :=
  match s with
  | EmptyString => if after_us then None else Some (acc, digits)
  | String c r =>
      if is_digit c then scan_digits r false (10 * acc + digit_val c) (digits + 1)
      else if Ascii.eqb c "_"%char then
        if after_us then None else scan_digits r true acc digits
      else None
  end.

Definition int_unsigned (s : string) : option Z :=
  match scan_digits s true 0 0 with
  | Some (v, digits) => if digits <=? int_max_str_digits then Some v else None
  | None => None
  end.

Definition int (s : string) : option Z :=
  match int_lstrip (int_rstrip s) with
  | String "+"%char r => int_unsigned r
  | String "-"%char r => option_map Z.opp (int_unsigned r)
  | r => int_unsigned r
  end.

(** [str(n)] for an integer. *)
Definition str_of_int (n : Z) : string := NilZero.string_of_int (Z.to_int n).

End PyStr.

(* ===================================================================== *)
(** * Exceptions, outcomes and the outside world *)
(* ===================================================================== *)

(** A raised exception: the names of the classes it is an instance of (its
    class and all its bases) and its [str()]. *)
Record exn := mk_exn { exn_classes : list string; exn_str : string }.

Definition isinstance (e : exn) (cls : string) : bool :=
  existsb (String.eqb cls) (exn_classes e).

(** The exceptions the interpreter itself raises in this program.  The
    message of [ValueError] is abbreviated (the real one quotes the
    argument); the program never reads it. *)
Definition ValueError (msg : string) : exn :=
  mk_exn ["ValueError"; "Exception"; "BaseException"] msg.

Definition IndexError (msg : string) : exn :=
  mk_exn ["IndexError"; "LookupError"; "Exception"; "BaseException"] msg.

(** Exceptions of the libraries the program calls, as the libraries declare
    them.  [requests.exceptions.ConnectTimeout] derives from both
    [ConnectionError] and [Timeout]; [ReadTimeout] from [Timeout] only. *)
Definition requests_ConnectionError (msg : string) : exn :=
  mk_exn ["requests.exceptions.ConnectionError";
          "requests.exceptions.RequestException";
          "OSError"; "Exception"; "BaseException"] msg.

Definition requests_ReadTimeout (msg : string) : exn :=
  mk_exn ["requests.exceptions.ReadTimeout"; "requests.exceptions.Timeout";
          "requests.exceptions.RequestException";
          "OSError"; "Exception"; "BaseException"] msg.

Definition requests_ConnectTimeout (msg : string) : exn :=
  mk_exn ["requests.exceptions.ConnectTimeout";
          "requests.exceptions.ConnectionError"; "requests.exceptions.Timeout";
          "requests.exceptions.RequestException";
          "OSError"; "Exception"; "BaseException"] msg.

Definition socket_timeout (msg : string) : exn :=
  mk_exn ["socket.timeout"; "OSError"; "Exception"; "BaseException"] msg.

Definition subprocess_TimeoutExpired (msg : string) : exn :=
  mk_exn ["subprocess.TimeoutExpired"; "subprocess.SubprocessError";
          "Exception"; "BaseException"] msg.

Definition OverflowError (msg : string) : exn :=
  mk_exn ["OverflowError"; "ArithmeticError"; "Exception"; "BaseException"] msg.

Definition KeyboardInterrupt : exn :=
  mk_exn ["KeyboardInterrupt"; "BaseException"] "".

(** Result of running a piece of Python: a value or a raised exception. *)
Inductive outcome (A : Type) : Type :=
| Ret (a : A)
| Raise (e : exn).
Arguments Ret {A} a.
Arguments Raise {A} e.

Definition obind {A B} (c : outcome A) (k : A -> outcome B) : outcome B :=
  match c with
  | Ret a => k a
  | Raise e => Raise e
  end.

Declare Scope py_scope.
Delimit Scope py_scope with py.
Notation "x <-? c ;; k" := (obind c (fun x => k))
  (at level 61, c at next level, right associativity) : py_scope.

(** [l[i]]: [IndexError] out of range (only non-negative indices occur). *)
Definition index (l : list string) (i : nat) : outcome string :=
  match nth_error l i with
  | Some x => Ret x
  | None => Raise (IndexError "list index out of range")
  end.

(** A [subprocess.Popen] object, identified by its process id. *)
Definition Popen := Z.

(** What the program does to the outside world, in order.  [EvPopen] is
    the call of [subprocess.Popen]; [EvSpawned] follows it when the call
    returns, and names the process it returned. *)
Inductive event : Type :=
| EvRun (cmd : list string) (kubeconfig : string) (timeout : Z)
| EvPopen (cmd : list string) (kubeconfig : string)
| EvSleep (seconds : Z)
| EvHttpGet (url : string) (timeout : Z)
| EvSocket
| EvSetTimeout (timeout : Z)
| EvConnectEx (host : string) (port : Z)
| EvSocketClose
| EvTerminate (process : Popen)
| EvWait (process : Popen)
| EvSpawned (process : Popen)
| EvPrint.

Record World := mk_World { now : Q; trace : list event }.

(** How the outside world answers.  Every answer may depend on the history
    so far; a blocking call also tells how long it took. *)
Record Env := mk_Env {
  (** [subprocess.run]: return code and captured stdout *)
  env_run : World -> list string -> Q * outcome (Z * string);
  (** [subprocess.Popen] *)
  env_popen : World -> list string -> outcome Popen;
  (** [requests.get]: the response's status code *)
  env_get : World -> string -> Z -> Q * outcome Z;
  (** [socket.socket] *)
  env_socket : World -> outcome unit;
  (** [sock.connect_ex]: the error indicator *)
  env_connect_ex : World -> string -> Z -> Q * outcome Z;
  (** [print] *)
  env_print : World -> outcome unit
}.

(** Effectful code: a function of the world. *)
Definition M (A : Type) : Type := World -> World * outcome A.

Definition ret {A} (a : A) : M A := fun w => (w, Ret a).

Definition bind {A B} (c : M A) (k : A -> M B) : M B :=
  fun w =>
    match c w with
    | (w', Ret a) => k a w'
    | (w', Raise e) => (w', Raise e)
    end.

Notation "x <- c ;; k" := (bind c (fun x => k))
  (at level 61, c at next level, right associativity) : py_scope.
Notation "c ;;; k" := (bind c (fun _ => k))
  (at level 61, right associativity) : py_scope.

Definition lift {A} (c : outcome A) : M A := fun w => (w, c).

Definition emit (ev : event) (w : World) : World :=
  mk_World (now w) (trace w ++ [ev]).

Definition elapse (d : Q) (w : World) : World :=
  mk_World (now w + d)%Q (trace w).

(** [try: c except C1: h1 except C2: h2 ...]: the first clause whose class
    the exception is an instance of handles it; with none, it propagates. *)
Fixpoint handler {A} (clauses : list (string * (exn -> M A))) (e : exn)
  : option (M A) :=
  match clauses with
  | [] => None
  | (cls, h) :: rest => if isinstance e cls then Some (h e) else handler rest e
  end.

Definition try_except {A} (c : M A) (clauses : list (string * (exn -> M A)))
  : M A :=
  fun w =>
    match c w with
    | (w', Ret a) => (w', Ret a)
    | (w', Raise e) =>
        match handler clauses e with
        | Some h => h w'
        | None => (w', Raise e)
        end
    end.

(** ** Calls into the outside world *)

Section Primitives.
Variable env : Env.

Definition time_time : M Q := fun w => (w, Ret (now w)).

Definition time_sleep (seconds : Z) : M unit :=
  fun w => (elapse (inject_Z seconds) (emit (EvSleep seconds) w), Ret tt).

Definition subprocess_run (cmd : list string) (kubeconfig : string)
    (timeout : Z) : M (Z * string) :=
  fun w =>
    let (d, r) := env_run env w cmd in
    (elapse d (emit (EvRun cmd kubeconfig timeout) w), r).

Definition subprocess_Popen (cmd : list string) (kubeconfig : string)
  : M Popen :=
  fun w =>
    match env_popen env w cmd with
    | Ret process =>
        (emit (EvSpawned process) (emit (EvPopen cmd kubeconfig) w), Ret process)
    | Raise e => (emit (EvPopen cmd kubeconfig) w, Raise e)
    end.

Definition py_print : M unit :=
  fun w => (emit EvPrint w, env_print env w).

Definition requests_get (url : string) (timeout : Z) : M Z :=
  fun w =>
    let (d, r) := env_get env w url timeout in
    (elapse d (emit (EvHttpGet url timeout) w), r).

Definition socket_socket : M unit :=
  fun w => (emit EvSocket w, env_socket env w).

(** [sock.settimeout] rejects a negative timeout, and one that does not fit
    the interpreter's 64-bit count of nanoseconds (CPython 3.11 on Linux). *)
Definition sock_settimeout (timeout : Z) : M unit :=
  fun w =>
    (emit (EvSetTimeout timeout) w,
     if timeout <? 0 then Raise (ValueError "Timeout value out of range")
     else if 9223372036854775807 <? timeout * 1000000000
     then Raise (OverflowError "timestamp too large to convert to C _PyTime_t")
     else Ret tt).

Definition sock_connect_ex (host : string) (port : Z) : M Z :=
  fun w =>
    let (d, r) := env_connect_ex env w host port in
    (elapse d (emit (EvConnectEx host port) w), r).

Definition sock_close : M unit :=
  fun w => (emit EvSocketClose w, Ret tt).

(** [Popen.terminate] and [Popen.wait] are taken not to raise. *)
Definition terminate (process : Popen) : M unit :=
  fun w => (emit (EvTerminate process) w, Ret tt).

Definition wait (process : Popen) : M unit :=
  fun w => (emit (EvWait process) w, Ret tt).
End Primitives.

(* ===================================================================== *)
(** * The program: k8s_monitor.py *)
(* ===================================================================== *)

Local Open Scope py_scope.

(** [@dataclass class PodStatus] *)
Module PodStatus.
Record t := mk {
  name : string;
  ready : string;
  status : string;
  restarts : Z;
  age : string;
  namespace : string
}.
Definition default_namespace : string := "default".
End PodStatus.

(** [@dataclass class ServiceTest] *)
Module ServiceTest.
Record t := mk {
  name : string;
  port : Z;
  service_type : string;
  test_endpoint : string
}.
Definition default_service_type : string := "grpc".
Definition default_test_endpoint : string := "/".
(** [ServiceTest(name, port, "grpc")] with the remaining default *)
Definition grpc (name : string) (port : Z) : t :=
  mk name port "grpc" default_test_endpoint.
End ServiceTest.

(** [class KubernetesMonitor] *)
Record KubernetesMonitor := mk_KubernetesMonitor {
  kubeconfig_path : string;
  services : list ServiceTest.t
}.

(** [KubernetesMonitor.__init__] *)
Definition init (kubeconfig_path : string) : KubernetesMonitor :=
  mk_KubernetesMonitor kubeconfig_path
    [ ServiceTest.mk "frontend" 8080 "http" "/";
      ServiceTest.grpc "cart" 8883;
      ServiceTest.grpc "checkout" 8884;
      ServiceTest.grpc "email" 8885;
      ServiceTest.grpc "order" 8885;
      ServiceTest.grpc "payment" 8886;
      ServiceTest.grpc "product" 8881;
      ServiceTest.grpc "user" 8882 ].

Definition default_kubeconfig_path : string := "kind-kubeconfig.yaml".

(** The result triple of a probe: success, message, elapsed seconds. *)
Definition probe_result : Type := bool * string * Q.

(** ** Pure parts *)

(** The body of the [for line in output.split('\n')] loop of
    [get_pod_status], with the list [pods] it appends to. *)
Fixpoint get_pod_status_loop (lines : list string) (pods : list PodStatus.t)
  : outcome (list PodStatus.t) :=
  match lines with
  | [] => Ret pods
  | line :: rest =>
      if PyStr.truthy (PyStr.strip line) then
        let parts := PyStr.split line in
        if (5 <=? length parts)%nat then
          n0 <-? index parts 0 ;;
          n1 <-? index parts 1 ;;
          n2 <-? index parts 2 ;;
          n3 <-? index parts 3 ;;
          restarts <-? match PyStr.int n3 with
                       | Some n => Ret n
                       | None => Raise (ValueError "invalid literal for int() with base 10")
                       end ;;
          n4 <-? index parts 4 ;;
          let pod := PodStatus.mk n0 n1 n2 restarts n4 PodStatus.default_namespace in
          get_pod_status_loop rest (pods ++ [pod])
        else get_pod_status_loop rest pods
      else get_pod_status_loop rest pods
  end.

Definition newline : ascii := "010"%char.

(** [get_pod_status] from [pods = []] on: what it makes of the text that
    kubectl printed. *)
Definition parse_pod_listing (output : string) : outcome (list PodStatus.t) :=
  get_pod_status_loop (PyStr.split_on newline output) [].

(** The condition of line 115:
    [pod.status == "Running" and pod.ready.split('/')[0] == pod.ready.split('/')[1]]. *)
Definition pod_is_healthy (pod : PodStatus.t) : outcome bool :=
  if String.eqb (PodStatus.status pod) "Running" then
    numerator <-? index (PyStr.split_on "/" (PodStatus.ready pod)) 0 ;;
    denominator <-? index (PyStr.split_on "/" (PodStatus.ready pod)) 1 ;;
    Ret (String.eqb numerator denominator)
  else Ret false.

(** The [for pod in pods] loop of [check_pods_health], with the flag
    [all_healthy] it maintains. *)
Fixpoint check_pods_health_loop (pods : list PodStatus.t) (all_healthy : bool)
  : outcome bool :=
  match pods with
  | [] => Ret all_healthy
  | pod :: rest =>
      healthy <-? pod_is_healthy pod ;;
      if healthy then check_pods_health_loop rest all_healthy
      else check_pods_health_loop rest false
  end.

(** [check_pods_health] from [pods = self.get_pod_status()] on. *)
Definition check_pods_health_of (pods : list PodStatus.t) : outcome bool :=
  match pods with
  | [] => Ret false
  | _ => check_pods_health_loop pods true
  end.

(** [local_port = 8000 + service.port] *)
Definition local_port_of (service : ServiceTest.t) : Z :=
  8000 + ServiceTest.port service.

(** The command line of [port_forward_service]. *)
Definition port_forward_cmd (service_name : string) (local_port service_port : Z)
  : list string :=
  [ "kubectl"; "port-forward";
    "service/" ++ service_name;
    PyStr.str_of_int local_port ++ ":" ++ PyStr.str_of_int service_port ].

(** ** Effectful parts *)

Section Monitor.
Variable env : Env.
Variable self : KubernetesMonitor.

Definition run_kubectl_command (command : list string) : M (bool * string) :=
  try_except
    (result <- subprocess_run env command (kubeconfig_path self) 30 ;;
     ret (fst result =? 0, PyStr.strip (snd result)))
    [ ("subprocess.TimeoutExpired", fun _ => ret (false, "Command timeout"));
      ("Exception", fun e => ret (false, exn_str e)) ].

Definition get_pod_status : M (list PodStatus.t) :=
  r <- run_kubectl_command ["kubectl"; "get"; "pods"; "-o"; "wide"; "--no-headers"] ;;
  let (success, output) := r : bool * string in
  if negb success then py_print env ;;; ret []
  else lift (parse_pod_listing output).

(** The prints: the two header lines, then, for a non-empty list and after
    the loop, the table and the summary line. *)
Definition check_pods_health : M bool :=
  py_print env ;;;
  py_print env ;;;
  pods <- get_pod_status ;;
  match pods with
  | [] => ret false
  | _ :: _ =>
      all_healthy <- lift (check_pods_health_loop pods true) ;;
      py_print env ;;;
      py_print env ;;;
      ret all_healthy
  end.

Definition port_forward_service (service_name : string)
    (local_port service_port : Z) : M Popen :=
  process <- subprocess_Popen env
               (port_forward_cmd service_name local_port service_port)
               (kubeconfig_path self) ;;
  time_sleep 2 ;;;
  ret process.

(** [timeout: int = 5] *)
Definition test_port_connectivity (host : string) (port : Z)
    (timeout : option Z) : M probe_result :=
  let timeout := match timeout with Some t => t | None => 5 end in
  start_time <- time_time ;;
  try_except
    (socket_socket env ;;;
     sock_settimeout timeout ;;;
     result <- sock_connect_ex env host port ;;
     sock_close ;;;
     t <- time_time ;;
     let response_time := (t - start_time)%Q in
     if result =? 0 then ret (true, "Port open", response_time)
     else ret (false, "Port closed", response_time))
    [ ("socket.timeout", fun _ => ret (false, "Connection timeout", inject_Z timeout));
      ("Exception", fun e => ret (false, exn_str e, inject_Z 0)) ].

(** [timeout: int = 10] *)
Definition test_http_service (url : string) (timeout : option Z)
  : M probe_result :=
  let timeout := match timeout with Some t => t | None => 10 end in
  start_time <- time_time ;;
  try_except
    (status_code <- requests_get env url timeout ;;
     t <- time_time ;;
     let response_time := (t - start_time)%Q in
     if status_code =? 200
     then ret (true, "HTTP " ++ PyStr.str_of_int status_code, response_time)
     else ret (false, "HTTP " ++ PyStr.str_of_int status_code, response_time))
    [ ("requests.exceptions.ConnectionError",
        fun _ => ret (false, "Connection refused", inject_Z 0));
      ("requests.exceptions.Timeout",
        fun _ => ret (false, "Request timeout", inject_Z timeout));
      ("Exception", fun e => ret (false, exn_str e, inject_Z 0)) ].

(** The [try] block of [test_service_connectivity].  Besides its outcome it
    yields the value the local variable [port_forward_process] has when
    the block is left: [None] until [port_forward_service] has returned. *)
Definition test_service_connectivity_try (service : ServiceTest.t)
    (timeout : Z) (w : World) : World * option Popen * outcome probe_result :=
  let local_port := local_port_of service in
  match port_forward_service (ServiceTest.name service) local_port
          (ServiceTest.port service) w with
  | (w1, Raise e) => (w1, None, Raise e)
  | (w1, Ret process) =>
      let (w2, r) :=
        (if String.eqb (ServiceTest.service_type service) "http" then
           let url := "http://localhost:" ++ PyStr.str_of_int local_port
                      ++ ServiceTest.test_endpoint service in
           test_http_service url (Some timeout)
         else
           test_port_connectivity "localhost" local_port (Some timeout)) w1 in
      (w2, Some process, r)
  end.

(** [timeout: int = 10].  [try] / [except Exception] / [finally]. *)
Definition test_service_connectivity (service : ServiceTest.t)
    (timeout : option Z) : M probe_result :=
  fun w =>
    let timeout := match timeout with Some t => t | None => 10 end in
    let '(w1, port_forward_process, r) :=
      test_service_connectivity_try service timeout w in
    let (w2, r) :=
      try_except (fun w => (w, r))
        [ ("Exception", fun e => ret (false, exn_str e, inject_Z 0)) ] w1 in
    match port_forward_process with
    | Some process =>
        let (w3, _) := (terminate process ;;; wait process) w2 in
        (w3, r)
    | None => (w2, r)
    end.

(** The loop of [run_connectivity_tests], with its flag
    [all_tests_passed]: one probe after the other, each with the default
    timeout, announced before and reported after. *)
Fixpoint run_connectivity_tests_loop (targets : list ServiceTest.t)
    (all_tests_passed : bool) : M bool :=
  match targets with
  | [] => ret all_tests_passed
  | service :: rest =>
      py_print env ;;;
      r <- test_service_connectivity service None ;;
      let '(success, _, _) := r : probe_result in
      py_print env ;;;
      if success then run_connectivity_tests_loop rest all_tests_passed
      else run_connectivity_tests_loop rest false
  end.

(** Two header lines before the loop; the table and the summary line
    after it. *)
Definition run_connectivity_tests : M bool :=
  py_print env ;;;
  py_print env ;;;
  all_tests_passed <- run_connectivity_tests_loop (services self) true ;;
  py_print env ;;;
  py_print env ;;;
  ret all_tests_passed.
End Monitor.

(* ===================================================================== *)
(** * Vocabulary of the specification *)
(* ===================================================================== *)

(** In-order traversal with a function that may raise: the first exception
    ends it. *)
Fixpoint omap {A B} (f : A -> outcome B) (l : list A) : outcome (list B) :=
  match l with
  | [] => Ret []
  | x :: xs =>
      y <-? f x ;;
      ys <-? omap f xs ;;
      Ret (y :: ys)
  end.

(** The parser as the specification words it: the fields of a line map
    positionally to name, ready, phase, restarts (an integer) and age ... *)
Definition pod_of_fields (fields : list string) : outcome PodStatus.t :=
  match fields with
  | f_name :: f_ready :: f_phase :: f_restarts :: f_age :: _ =>
      match PyStr.int f_restarts with
      | Some n =>
          Ret (PodStatus.mk f_name f_ready f_phase n f_age PodStatus.default_namespace)
      | None => Raise (ValueError "invalid literal for int() with base 10")
      end
  | _ => Raise (IndexError "list index out of range")
  end.

Definition enough_fields (fields : list string) : bool :=
  (5 <=? length fields)%nat.

(** ... lines with fewer than five fields are dropped, and the records keep
    the order of the lines. *)
Definition parse_lines_spec (lines : list string) : outcome (list PodStatus.t) :=
  omap pod_of_fields (filter enough_fields (map PyStr.split lines)).

(** The events by which a tunnel is released. *)
Definition is_release (ev : event) : bool :=
  match ev with
  | EvTerminate _ | EvWait _ => true
  | _ => false
  end.

(** The events a run added to the trace. *)
Definition new_events (w w' : World) : list event :=
  skipn (length (trace w)) (trace w').

(** The events of a probe that carry a timeout, with that timeout. *)
Definition timeout_of (ev : event) : option Z :=
  match ev with
  | EvHttpGet _ t => Some t
  | EvSetTimeout t => Some t
  | _ => None
  end.

(** The events of a probe that name a local port, read as: the command line
    of the tunnel, the URL fetched, the address connected to. *)
Definition targets_local_port (service : ServiceTest.t) (local_port : Z)
    (ev : event) : Prop :=
  match ev with
  | EvPopen cmd _ =>
      cmd = port_forward_cmd (ServiceTest.name service) local_port
              (ServiceTest.port service)
  | EvHttpGet url _ =>
      url = "http://localhost:" ++ PyStr.str_of_int local_port
            ++ ServiceTest.test_endpoint service
  | EvConnectEx host port => host = "localhost" /\ port = local_port
  | _ => True
  end.

(** A text of whitespace only. *)
Fixpoint all_space (s : string) : bool :=
  match s with
  | EmptyString => true
  | String c r => PyStr.is_space c && all_space r
  end.

(** What the two network checks add to the trace. *)
Definition tcp_events (host : string) (port timeout : Z) (evs : list event) : Prop :=
  evs = [EvSocket]
  \/ evs = [EvSocket; EvSetTimeout timeout]
  \/ evs = [EvSocket; EvSetTimeout timeout; EvConnectEx host port]
  \/ evs = [EvSocket; EvSetTimeout timeout; EvConnectEx host port; EvSocketClose].

Definition probe_call_events (service : ServiceTest.t) (timeout : Z)
    (evs : list event) : Prop :=
  if String.eqb (ServiceTest.service_type service) "http" then
    evs = [EvHttpGet ("http://localhost:" ++ PyStr.str_of_int (local_port_of service)
                      ++ ServiceTest.test_endpoint service) timeout]
  else tcp_events "localhost" (local_port_of service) timeout evs.

(** ** Scripted environments, for concrete runs *)

(** An outside world that gives the same answers whatever the history, each
    blocking call taking one second, and every [print] succeeding. *)
Definition scripted_env (kubectl : outcome (Z * string))
    (popen : outcome Popen) (get : outcome Z)
    (sock : outcome unit) (connect : outcome Z) : Env :=
  mk_Env (fun _ _ => (1%Q, kubectl))
         (fun _ _ => popen)
         (fun _ _ _ => (1%Q, get))
         (fun _ => sock)
         (fun _ _ _ => (1%Q, connect))
         (fun _ => Ret tt).

(** kubectl prints [stdout] and exits with 0; nothing else is asked. *)
Definition kubectl_prints (stdout : string) : Env :=
  scripted_env (Ret (0, stdout)) (Ret 4242) (Ret 200) (Ret tt) (Ret 0).

(** The tunnel starts as process 4242; HTTP and TCP calls as given. *)
Definition tunnel_env (get : outcome Z) (connect : outcome Z) : Env :=
  scripted_env (Ret (0, "")) (Ret 4242) get (Ret tt) connect.

Definition monitor : KubernetesMonitor := init default_kubeconfig_path.

Definition w0 : World := mk_World 0%Q [].

Definition frontend : ServiceTest.t := ServiceTest.mk "frontend" 8080 "http" "/".
Definition cart : ServiceTest.t := ServiceTest.grpc "cart" 8883.
Definition email : ServiceTest.t := ServiceTest.grpc "email" 8885.
Definition order : ServiceTest.t := ServiceTest.grpc "order" 8885.

(* ===================================================================== *)
(** * The rest of the monitor: service listing and the full check *)
(* ===================================================================== *)

(** [needle in hay] for strings. *)
Fixpoint contains (needle hay : string) : bool :=
  if String.prefix needle hay then true
  else match hay with
       | EmptyString => false
       | String _ r => contains needle r
       end.

(** The three values of [type_icon] in [get_service_info]; the texts
    themselves hold characters beyond code point 255 and are only printed. *)
Inductive type_icon : Type :=
| IconHTTP
| IconMiddleware
| IconGRPC.

(** A row of [table_data] in [get_service_info]; the first column is
    [f"{type_icon} {parts[0]}"], kept as its two parts. *)
Record service_row := mk_service_row {
  row_icon : type_icon;
  row_name : string;
  row_type : string;
  row_cluster_ip : string;
  row_external_ip : string;
  row_ports : string
}.

(** The [for line in output.split('\n')] loop of [get_service_info], with
    the list [table_data] it appends to. *)
Fixpoint get_service_info_loop (lines : list string) (table_data : list service_row)
  : outcome (list service_row) :=
  match lines with
  | [] => Ret table_data
  | line :: rest =>
      if PyStr.truthy (PyStr.strip line) && negb (contains "kubernetes" line) then
        let parts := PyStr.split line in
        if (4 <=? length parts)%nat then
          service_name <-? index parts 0 ;;
          let icon :=
            if String.eqb service_name "frontend" then IconHTTP
            else if String.prefix "gomall-" service_name then IconMiddleware
            else IconGRPC in
          p0 <-? index parts 0 ;;
          p1 <-? index parts 1 ;;
          p2 <-? index parts 2 ;;
          p3 <-? index parts 3 ;;
          p4 <-? (if (4 <? length parts)%nat then index parts 4 else Ret "") ;;
          get_service_info_loop rest
            (table_data ++ [mk_service_row icon p0 p1 p2 p3 p4])
        else get_service_info_loop rest table_data
      else get_service_info_loop rest table_data
  end.

(** The two kubectl command lines that list things. *)
Definition get_pods_command : list string :=
  ["kubectl"; "get"; "pods"; "-o"; "wide"; "--no-headers"].

Definition get_services_command : list string :=
  ["kubectl"; "get"; "services"; "--no-headers"].

Section FullCheck.
Variable env : Env.
Variable self : KubernetesMonitor.

(** [get_service_info]: two header lines are printed, the table is built
    and printed, nothing is returned. *)
Definition get_service_info : M unit :=
  py_print env ;;;
  py_print env ;;;
  r <- run_kubectl_command env self get_services_command ;;
  let (success, output) := r : bool * string in
  if success then
    lift (get_service_info_loop (PyStr.split_on newline output) []) ;;;
    py_print env ;;;
    ret tt
  else ret tt.

(** [run_full_check].  [kubeconfig_exists] is the answer of
    [os.path.exists(self.kubeconfig_path)]. *)
Definition run_full_check (kubeconfig_exists : bool) : M bool :=
  py_print env ;;;
  py_print env ;;;
  py_print env ;;;
  py_print env ;;;
  if negb kubeconfig_exists then py_print env ;;; ret false
  else
    get_service_info ;;;
    pods_healthy <- check_pods_health env self ;;
    connectivity_tests_passed <-
      (if pods_healthy : bool then run_connectivity_tests env self
       else py_print env ;;; ret false) ;;
    py_print env ;;;
    py_print env ;;;
    if (pods_healthy && connectivity_tests_passed)%bool then
      py_print env ;;;
      py_print env ;;;
      py_print env ;;;
      ret true
    else
      py_print env ;;;
      (if negb pods_healthy then py_print env else ret tt) ;;;
      (if negb connectivity_tests_passed then py_print env else ret tt) ;;;
      ret false.
End FullCheck.

(** ** More vocabulary *)

(** A text with a whitespace character in it. *)
Fixpoint has_space (s : string) : bool :=
  match s with
  | EmptyString => false
  | String c r => PyStr.is_space c || has_space r
  end.

(** A field as [split()] yields it: not empty, no whitespace inside. *)
Definition clean_field (s : string) : Prop :=
  s <> EmptyString /\ has_space s = false.

Definition clean_pod (pod : PodStatus.t) : Prop :=
  clean_field (PodStatus.name pod) /\ clean_field (PodStatus.ready pod)
  /\ clean_field (PodStatus.status pod) /\ clean_field (PodStatus.age pod)
  /\ PodStatus.namespace pod = "default".

(** A line that [get_pod_status] can convert: with five fields or more, the
    fourth is an integer. *)
Definition convertible_line (line : string) : Prop :=
  enough_fields (PyStr.split line) = true ->
  PyStr.int (nth 3 (PyStr.split line) "") <> None.

(** A running pod whose ready field has no "/". *)
Definition running_without_separator (pod : PodStatus.t) : Prop :=
  PodStatus.status pod = "Running"
  /\ length (PyStr.split_on "/" (PodStatus.ready pod)) = 1%nat.

(** The events of a network check that ran to its end. *)
Definition full_call_events (service : ServiceTest.t) (timeout : Z) : list event :=
  if String.eqb (ServiceTest.service_type service) "http" then
    [EvHttpGet ("http://localhost:" ++ PyStr.str_of_int (local_port_of service)
                ++ ServiceTest.test_endpoint service) timeout]
  else
    [EvSocket; EvSetTimeout timeout;
     EvConnectEx "localhost" (local_port_of service); EvSocketClose].

Definition tunnel_start (self : KubernetesMonitor) (service : ServiceTest.t) : event :=
  EvPopen (port_forward_cmd (ServiceTest.name service) (local_port_of service)
             (ServiceTest.port service)) (kubeconfig_path self).

(** The events of one probe with the default timeout: a tunnel that did not
    start, or the start, the process it gave, the settle delay, the network
    check, and the release of that same process. *)
Definition probe_segment (self : KubernetesMonitor) (service : ServiceTest.t)
    (evs : list event) : Prop :=
  evs = [tunnel_start self service]
  \/ exists process call_evs,
       probe_call_events service 10 call_evs
       /\ evs = ([tunnel_start self service; EvSpawned process; EvSleep 2]
                 ++ call_evs
                 ++ [EvTerminate process; EvWait process])%list.

(** The events of one probe that passed: the network check ran to its end,
    and the process released is the one the tunnel start gave. *)
Definition passed_segment (self : KubernetesMonitor) (service : ServiceTest.t)
    (evs : list event) : Prop :=
  exists process,
    evs = ([tunnel_start self service; EvSpawned process; EvSleep 2]
           ++ full_call_events service 10
           ++ [EvTerminate process; EvWait process])%list.

(** What the two [except] clauses of [test_port_connectivity] make of an
    exception. *)
Definition tcp_recover (timeout : Z) (e : exn) : outcome probe_result :=
  if isinstance e "socket.timeout"
  then Ret (false, "Connection timeout", inject_Z timeout)
  else if isinstance e "Exception" then Ret (false, exn_str e, inject_Z 0)
  else Raise e.

(** What the [except Exception] clause of [test_service_connectivity] makes
    of the outcome of its [try] block. *)
Definition probe_recover (r : outcome probe_result) : outcome probe_result :=
  match r with
  | Ret v => Ret v
  | Raise e =>
      if isinstance e "Exception" then Ret (false, exn_str e, inject_Z 0)
      else Raise e
  end.

(** The events that start a tunnel or talk to the network. *)
Definition is_probe_event (ev : event) : bool :=
  match ev with
  | EvRun _ _ _ | EvPrint => false
  | _ => true
  end.

Definition is_print (ev : event) : bool :=
  match ev with
  | EvPrint => true
  | _ => false
  end.

Definition not_print (ev : event) : bool := negb (is_print ev).

(** What a run did apart from printing. *)
Definition without_prints (evs : list event) : list event :=
  filter not_print evs.

(** A console on which no [print] raises. *)
Definition console_ok (env : Env) : Prop :=
  forall w, env_print env w = Ret tt.

(** The run from [w] to [w'] added events to the trace, of which those
    that [keep] keeps are [acts]. *)
Definition added (keep : event -> bool) (w w' : World) (acts : list event) : Prop :=
  exists evs, trace w' = (trace w ++ evs)%list /\ filter keep evs = acts.

(** The largest timeout [sock.settimeout] takes. *)
Definition max_socket_timeout : Z := 9223372036.

(** In [evs] every [connect_ex] comes directly after [settimeout(timeout)]. *)
Definition connect_follows_settimeout (timeout : Z) (evs : list event) : Prop :=
  forall before host port after,
    evs = (before ++ EvConnectEx host port :: after)%list ->
    exists before', before = (before' ++ [EvSetTimeout timeout])%list.

(** The fleet verdict over a pod list: false for the empty list, otherwise
    the conjunction of the per-pod verdicts. *)
Definition conjunction_of_verdicts (pods : list PodStatus.t) : outcome bool :=
  match pods with
  | [] => Ret false
  | _ :: _ =>
      verdicts <-? omap pod_is_healthy pods ;;
      Ret (forallb (fun healthy => healthy) verdicts)
  end.

(** The world in which [check_pods_health] asks for the pods: after its two
    header lines. *)
Definition after_header (w : World) : World := emit EvPrint (emit EvPrint w).

(** The world in which [run_full_check] asks whether the kubeconfig file
    exists: after the four lines of its banner. *)
Definition after_banner (w : World) : World :=
  emit EvPrint (emit EvPrint (emit EvPrint (emit EvPrint w))).

(* ===================================================================== *)
(** * Concrete runs *)
(* ===================================================================== *)

Example split_on_ex1 : PyStr.split_on "/" "2/2" = ["2"; "2"].
Proof. reflexivity. Qed.
Example split_on_ex2 : PyStr.split_on "/" "1" = ["1"].
Proof. reflexivity. Qed.
Example split_on_ex3 : PyStr.split_on "/" "/a//" = [""; "a"; ""; ""].
Proof. reflexivity. Qed.
Example split_ex1 : PyStr.split "  ab  c d " = ["ab"; "c"; "d"].
Proof. reflexivity. Qed.
Example strip_ex1 : PyStr.strip "  a b  " = "a b".
Proof. reflexivity. Qed.
Example int_ex1 : PyStr.int "12" = Some 12.
Proof. reflexivity. Qed.
Example int_ex2 : PyStr.int "-1_000" = Some (-1000).
Proof. reflexivity. Qed.
Example int_ex3 : PyStr.int "1__0" = None.
Proof. reflexivity. Qed.
Example int_ex4 : PyStr.int "" = None.
Proof. reflexivity. Qed.
Example int_ex5 : PyStr.int "3d" = None.
Proof. reflexivity. Qed.
Example str_of_int_ex : PyStr.str_of_int 16883 = "16883".
Proof. reflexivity. Qed.

Example parse_ex1 :
  parse_pod_listing "svcA 2/2 Running 0 5d
svcB 1/2 Running 9 1d"
  = Ret [ PodStatus.mk "svcA" "2/2" "Running" 0 "5d" "default";
          PodStatus.mk "svcB" "1/2" "Running" 9 "1d" "default" ].
Proof. reflexivity. Qed.

Example health_ex1 :
  check_pods_health_of
    [ PodStatus.mk "svcA" "2/2" "Running" 0 "5d" "default";
      PodStatus.mk "svcB" "1/2" "Running" 9 "1d" "default" ] = Ret false.
Proof. reflexivity. Qed.

Example probe_ex1 :
  test_service_connectivity (tunnel_env (Ret 200) (Ret 0)) monitor frontend None w0
  = (mk_World (0 + inject_Z 2 + 1)%Q
       [ EvPopen ["kubectl"; "port-forward"; "service/frontend"; "16080:8080"]
           "kind-kubeconfig.yaml";
         EvSpawned 4242;
         EvSleep 2;
         EvHttpGet "http://localhost:16080/" 10;
         EvTerminate 4242; EvWait 4242 ],
     Ret (true, "HTTP 200", (0 + inject_Z 2 + 1 - (0 + inject_Z 2))%Q)).
Proof. reflexivity. Qed.

Example probe_ex3 :
  test_service_connectivity (tunnel_env (Raise KeyboardInterrupt) (Ret 0)) monitor frontend None w0
  = (mk_World (0 + inject_Z 2 + 1)%Q
       [ EvPopen ["kubectl"; "port-forward"; "service/frontend"; "16080:8080"]
           "kind-kubeconfig.yaml";
         EvSpawned 4242;
         EvSleep 2;
         EvHttpGet "http://localhost:16080/" 10;
         EvTerminate 4242; EvWait 4242 ],
     Raise KeyboardInterrupt).
Proof. reflexivity. Qed.

Example probe_ex2 :
  snd (test_service_connectivity (tunnel_env (Ret 200) (Ret 111)) monitor cart None w0)
  = Ret (false, "Port closed", (0 + inject_Z 2 + 1 - (0 + inject_Z 2))%Q).
Proof. reflexivity. Qed.

(* ===================================================================== *)
(** * Facts about the text primitives *)
(* ===================================================================== *)

Module PyStrFacts.
Import PyStr.

Lemma lstrip_empty s : lstrip s = EmptyString -> all_space s = true.
Proof.
  induction s as [|c r IH]; simpl; [reflexivity|].
  destruct (is_space c); [exact IH | discriminate].
Qed.

Lemma all_space_rstrip s : all_space (rstrip s) = all_space s.
Proof.
  induction s as [|c r IH]; simpl; [reflexivity|].
  destruct (rstrip r) as [|c' r'] eqn:E.
  - simpl in IH. rewrite <- IH.
    destruct (is_space c) eqn:Ec; simpl; rewrite ?Ec; reflexivity.
  - cbn [all_space]. cbn [all_space] in IH. rewrite IH. reflexivity.
Qed.

Lemma split_all_space s : all_space s = true -> split s = [].
Proof.
  induction s as [|c r IH]; simpl; [reflexivity|].
  destruct (is_space c); simpl; [exact IH | discriminate].
Qed.

(** A line that [strip] empties has no fields. *)
Lemma strip_falsy_split s : truthy (strip s) = false -> split s = [].
Proof.
  intro H. apply split_all_space. rewrite <- all_space_rstrip.
  apply lstrip_empty. unfold strip in H.
  destruct (lstrip (rstrip s)); [reflexivity | discriminate].
Qed.

(** [split(sep)] never yields the empty list: index 0 always exists. *)
Lemma split_on_nonempty sep s : split_on sep s <> [].
Proof.
  destruct s as [|c r]; simpl; [discriminate|].
  destruct (Ascii.eqb c sep); [discriminate|].
  destruct (split_on sep r); discriminate.
Qed.

End PyStrFacts.

(* ===================================================================== *)
(** * The pod status parser *)
(* ===================================================================== *)

Lemma obind_assoc {A B C} (c : outcome A) (f : A -> outcome B) (g : B -> outcome C) :
  obind (obind c f) g = obind c (fun a => obind (f a) g).
Proof. destruct c; reflexivity. Qed.

Lemma index_enough_fields fields :
  enough_fields fields = true ->
  (n0 <-? index fields 0 ;;
   n1 <-? index fields 1 ;;
   n2 <-? index fields 2 ;;
   n3 <-? index fields 3 ;;
   restarts <-? match PyStr.int n3 with
                | Some n => Ret n
                | None => Raise (ValueError "invalid literal for int() with base 10")
                end ;;
   n4 <-? index fields 4 ;;
   Ret (PodStatus.mk n0 n1 n2 restarts n4 PodStatus.default_namespace))
  = pod_of_fields fields.
Proof.
  unfold enough_fields. intro H.
  destruct fields as [|a [|b [|c [|d [|e rest]]]]]; simpl in H; try discriminate.
  simpl. destruct (PyStr.int d); reflexivity.
Qed.

(** One round of the loop, by the number of fields of the line. *)
Lemma get_pod_status_loop_step line rest pods :
  get_pod_status_loop (line :: rest) pods =
  if enough_fields (PyStr.split line)
  then pod <-? pod_of_fields (PyStr.split line) ;;
       get_pod_status_loop rest (pods ++ [pod])
  else get_pod_status_loop rest pods.
Proof.
  cbn [get_pod_status_loop].
  destruct (PyStr.truthy (PyStr.strip line)) eqn:Et.
  - fold (enough_fields (PyStr.split line)).
    destruct (enough_fields (PyStr.split line)) eqn:E; [|reflexivity].
    rewrite <- (index_enough_fields _ E).
    destruct (PyStr.split line) as [|a [|b [|c [|d [|e more]]]]];
      try discriminate E.
    simpl. destruct (PyStr.int d); reflexivity.
  - rewrite (PyStrFacts.strip_falsy_split _ Et). reflexivity.
Qed.

(** The loop refines the specification's filter-then-convert reading. *)
Lemma get_pod_status_loop_spec lines : forall pods,
  get_pod_status_loop lines pods =
  (more <-? parse_lines_spec lines ;; Ret (pods ++ more)%list).
Proof.
  unfold parse_lines_spec.
  induction lines as [|line rest IH]; intro pods.
  - simpl. rewrite app_nil_r. reflexivity.
  - rewrite get_pod_status_loop_step. cbn [map filter].
    destruct (enough_fields (PyStr.split line)).
    + cbn [omap]. destruct (pod_of_fields (PyStr.split line)) as [pod|e]; simpl.
      * rewrite IH.
        destruct (omap pod_of_fields (filter enough_fields (map PyStr.split rest)));
          simpl; [rewrite <- app_assoc|]; reflexivity.
      * reflexivity.
    + apply IH.
Qed.

(** A line with fewer than five fields leaves the loop as it found it. *)
Lemma get_pod_status_loop_skip l1 line l2 : forall pods,
  (length (PyStr.split line) < 5)%nat ->
  get_pod_status_loop (l1 ++ line :: l2) pods = get_pod_status_loop (l1 ++ l2) pods.
Proof.
  intros pods H.
  assert (E : enough_fields (PyStr.split line) = false)
    by (unfold enough_fields; apply Nat.leb_gt; exact H).
  revert pods. induction l1 as [|l l1 IH]; intro pods.
  - simpl app. rewrite get_pod_status_loop_step, E. reflexivity.
  - simpl app. rewrite !get_pod_status_loop_step.
    destruct (enough_fields (PyStr.split l)); [|apply IH].
    destruct (pod_of_fields (PyStr.split l)); simpl; [apply IH | reflexivity].
Qed.

(** A line with five fields or more whose fourth is no integer makes the
    loop raise, wherever it stands and whatever the other lines are. *)
Lemma get_pod_status_loop_bad_restarts lines : forall pods line,
  In line lines ->
  enough_fields (PyStr.split line) = true ->
  PyStr.int (nth 3 (PyStr.split line) "") = None ->
  get_pod_status_loop lines pods =
  Raise (ValueError "invalid literal for int() with base 10").
Proof.
  induction lines as [|l rest IH]; intros pods line Hin He Hint; [destruct Hin|].
  rewrite get_pod_status_loop_step.
  assert (Hbad : forall fs, enough_fields fs = true ->
            forall pod, pod_of_fields fs = Raise pod ->
            pod = ValueError "invalid literal for int() with base 10").
  { intros fs Hfs pod. unfold enough_fields in Hfs.
    destruct fs as [|a [|b [|c [|d [|e more]]]]]; try discriminate Hfs.
    simpl. destruct (PyStr.int d); intro H; inversion H; reflexivity. }
  destruct Hin as [->|Hin].
  - rewrite He. unfold enough_fields in He.
    destruct (PyStr.split line) as [|a [|b [|c [|d [|e more]]]]];
      try discriminate He.
    simpl in Hint. simpl. rewrite Hint. reflexivity.
  - destruct (enough_fields (PyStr.split l)) eqn:El.
    + destruct (pod_of_fields (PyStr.split l)) as [pod|e] eqn:Ep; simpl.
      * eapply IH; eassumption.
      * rewrite (Hbad _ El _ Ep). reflexivity.
    + eapply IH; eassumption.
Qed.

(** [get_pod_status] is [run_kubectl_command] followed by the parser, or by
    the error line when kubectl failed. *)
Lemma get_pod_status_unfold env self w :
  get_pod_status env self w =
  match run_kubectl_command env self
          ["kubectl"; "get"; "pods"; "-o"; "wide"; "--no-headers"] w with
  | (w', Ret (true, output)) => (w', parse_pod_listing output)
  | (w', Ret (false, _)) =>
      (emit EvPrint w',
       match env_print env w' with
       | Ret _ => Ret []
       | Raise e => Raise e
       end)
  | (w', Raise e) => (w', Raise e)
  end.
Proof.
  unfold get_pod_status, bind, py_print, ret.
  destruct (run_kubectl_command env self _ w) as [w' [[[|] output]|e]];
    cbn [negb]; try reflexivity.
  destruct (env_print env w'); reflexivity.
Qed.

(** C7.  For every text, (a) the parser's result is the same as if a line
    with fewer than five whitespace-separated fields were not there: such a
    line yields no record and raises nothing; (b) the result is the
    conversion, in line order, of exactly the lines with five fields or
    more, so the records keep the order of the input lines. *)
Theorem parser_drops_short_lines_keeps_order (output : string) :
  (forall l1 line l2,
      PyStr.split_on newline output = (l1 ++ line :: l2)%list ->
      (length (PyStr.split line) < 5)%nat ->
      parse_pod_listing output = get_pod_status_loop (l1 ++ l2) [])
  /\ parse_pod_listing output =
     omap pod_of_fields
       (filter enough_fields (map PyStr.split (PyStr.split_on newline output))).
Proof.
  split.
  - intros l1 line l2 Hsplit Hshort. unfold parse_pod_listing.
    rewrite Hsplit. apply get_pod_status_loop_skip. exact Hshort.
  - unfold parse_pod_listing. rewrite get_pod_status_loop_spec.
    unfold parse_lines_spec.
    destruct (omap pod_of_fields _); reflexivity.
Qed.

Lemma parser_drops_short_lines_keeps_order_witness :
  parse_pod_listing "svcA 2/2 Running 0 5d
No resources found
svcB 1/2 Running 9 1d"
  = get_pod_status_loop (["svcA 2/2 Running 0 5d"] ++ ["svcB 1/2 Running 9 1d"]) [].
Proof.
  apply (proj1 (parser_drops_short_lines_keeps_order _)
           ["svcA 2/2 Running 0 5d"] "No resources found" ["svcB 1/2 Running 9 1d"]).
  - reflexivity.
  - simpl. lia.
Defined.

(** C8.  There is an input with a line of five fields whose fourth field is
    not a number, between two well-formed lines, on which [get_pod_status]
    raises [ValueError]: no record list is returned, although kubectl
    succeeded and the other lines parse. *)
Theorem non_numeric_restarts_fail_whole_parse :
  exists output line,
    In line (PyStr.split_on newline output)
    /\ (5 <= length (PyStr.split line))%nat
    /\ PyStr.int (nth 3 (PyStr.split line) "") = None
    /\ (forall pods, parse_pod_listing output <> Ret pods)
    /\ snd (get_pod_status (kubectl_prints output) monitor w0)
       = Raise (ValueError "invalid literal for int() with base 10").
Proof.
  exists "svcA 2/2 Running 0 5d
svcB 1/2 Running many 1d
svcC 1/1 Running 0 2d", "svcB 1/2 Running many 1d".
  repeat split.
  - simpl. auto.
  - simpl. lia.
  - intros pods H. vm_compute in H. discriminate H.
Qed.

(* ===================================================================== *)
(** * Pod health *)
(* ===================================================================== *)

(** The classification of one pod, by the shape of its ready field. *)
Lemma pod_is_healthy_cases pod :
  pod_is_healthy pod =
  if String.eqb (PodStatus.status pod) "Running" then
    match PyStr.split_on "/" (PodStatus.ready pod) with
    | numerator :: denominator :: _ => Ret (String.eqb numerator denominator)
    | _ => Raise (IndexError "list index out of range")
    end
  else Ret false.
Proof.
  unfold pod_is_healthy.
  destruct (String.eqb (PodStatus.status pod) "Running"); [|reflexivity].
  pose proof (PyStrFacts.split_on_nonempty "/" (PodStatus.ready pod)) as Hne.
  destruct (PyStr.split_on "/" (PodStatus.ready pod)) as [|a [|b rest]];
    [contradiction | reflexivity | reflexivity].
Qed.

(** C3.  A pod is classified healthy if and only if its phase is "Running"
    and the first two pieces of its ready field, split on "/", are equal;
    any other phase classifies it unhealthy, and so does any ready field
    whose numerator and denominator differ. *)
Theorem pod_healthy_iff_running_and_ready (pod : PodStatus.t) :
  (pod_is_healthy pod = Ret true <->
     PodStatus.status pod = "Running"
     /\ exists numerator denominator rest,
          PyStr.split_on "/" (PodStatus.ready pod) = numerator :: denominator :: rest
          /\ numerator = denominator)
  /\ (PodStatus.status pod <> "Running" -> pod_is_healthy pod = Ret false)
  /\ (forall numerator denominator rest,
        PyStr.split_on "/" (PodStatus.ready pod) = numerator :: denominator :: rest ->
        numerator <> denominator ->
        pod_is_healthy pod = Ret false).
Proof.
  rewrite pod_is_healthy_cases.
  destruct (String.eqb_spec (PodStatus.status pod) "Running") as [Hs|Hs].
  - split; [|split].
    + split.
      * intro H. split; [exact Hs|].
        destruct (PyStr.split_on "/" (PodStatus.ready pod)) as [|a [|b rest]];
          try discriminate H.
        exists a, b, rest. split; [reflexivity|].
        apply String.eqb_eq. inversion H. reflexivity.
      * intros [_ (a & b & rest & E & Hab)]. rewrite E, Hab, String.eqb_refl.
        reflexivity.
    + intro H. contradiction.
    + intros a b rest E Hab. rewrite E.
      apply String.eqb_neq in Hab. rewrite Hab. reflexivity.
  - split; [|split].
    + split; [discriminate | intros [H _]; contradiction].
    + reflexivity.
    + reflexivity.
Qed.

Lemma pod_healthy_iff_running_and_ready_witness :
  pod_is_healthy (PodStatus.mk "svcA" "2/2" "Running" 0 "5d" "default") = Ret true
  /\ pod_is_healthy (PodStatus.mk "svcB" "0/1" "Pending" 0 "1d" "default") = Ret false
  /\ pod_is_healthy (PodStatus.mk "svcC" "1/2" "Running" 9 "1d" "default") = Ret false.
Proof.
  split; [|split].
  - apply (proj1 (pod_healthy_iff_running_and_ready _)).
    split; [reflexivity|]. exists "2", "2", []. split; reflexivity.
  - apply (proj1 (proj2 (pod_healthy_iff_running_and_ready _))).
    simpl. discriminate.
  - apply (proj2 (proj2 (pod_healthy_iff_running_and_ready _)) "1" "2" []).
    + reflexivity.
    + discriminate.
Defined.

(** The loop carries the conjunction of its flag and of the verdicts. *)
Lemma check_pods_health_loop_spec pods : forall all_healthy,
  check_pods_health_loop pods all_healthy =
  (verdicts <-? omap pod_is_healthy pods ;;
   Ret (all_healthy && forallb (fun healthy => healthy) verdicts)).
Proof.
  induction pods as [|pod rest IH]; intro all_healthy.
  - simpl. rewrite andb_true_r. reflexivity.
  - cbn [check_pods_health_loop omap].
    destruct (pod_is_healthy pod) as [[|]|e]; simpl; [| |reflexivity].
    + rewrite IH. destruct (omap pod_is_healthy rest); reflexivity.
    + rewrite IH. destruct (omap pod_is_healthy rest); simpl; [|reflexivity].
      rewrite andb_false_r. reflexivity.
Qed.

(** The verdict computed from the pod list is the conjunction of the per-pod
    verdicts. *)
Lemma check_pods_health_of_is_conjunction (pods : list PodStatus.t) :
  check_pods_health_of pods = conjunction_of_verdicts pods.
Proof.
  destruct pods as [|pod rest]; [reflexivity|].
  unfold check_pods_health_of, conjunction_of_verdicts.
  rewrite check_pods_health_loop_spec.
  destruct (omap pod_is_healthy (pod :: rest)); reflexivity.
Qed.

(** [check_pods_health], print by print. *)
Lemma check_pods_health_unfold env self w :
  check_pods_health env self w =
  match env_print env w with
  | Raise e => (emit EvPrint w, Raise e)
  | Ret _ =>
      match env_print env (emit EvPrint w) with
      | Raise e => (after_header w, Raise e)
      | Ret _ =>
          match get_pod_status env self (after_header w) with
          | (w1, Raise e) => (w1, Raise e)
          | (w1, Ret pods) =>
              match pods with
              | [] => (w1, Ret false)
              | _ :: _ =>
                  match check_pods_health_of pods with
                  | Raise e => (w1, Raise e)
                  | Ret all_healthy =>
                      match env_print env w1 with
                      | Raise e => (emit EvPrint w1, Raise e)
                      | Ret _ =>
                          (emit EvPrint (emit EvPrint w1),
                           match env_print env (emit EvPrint w1) with
                           | Raise e => Raise e
                           | Ret _ => Ret all_healthy
                           end)
                      end
                  end
              end
          end
      end
  end.
Proof.
  unfold check_pods_health, bind, py_print, lift, ret, after_header.
  destruct (env_print env w); [|reflexivity].
  destruct (env_print env (emit EvPrint w)); [|reflexivity].
  destruct (get_pod_status env self _) as [w1 [[|pod rest]|e]]; try reflexivity.
  unfold check_pods_health_of.
  destruct (check_pods_health_loop (pod :: rest) true); [|reflexivity].
  destruct (env_print env w1); [|reflexivity].
  destruct (env_print env (emit EvPrint w1)); reflexivity.
Qed.

(** C4.  The value [check_pods_health] returns is the fleet verdict of the
    pod list that [get_pod_status] gave it: [false] for the empty list and
    otherwise the conjunction, over all pods, of the per-pod
    classification.  Whenever it returns, it returns that; and on a console
    that takes its prints it returns (or raises) exactly as fetching the
    pods and forming the conjunction do. *)
Theorem check_pods_health_is_conjunction
    (env : Env) (self : KubernetesMonitor) (w : World) :
  (forall b,
      snd (check_pods_health env self w) = Ret b ->
      exists pods,
        snd (get_pod_status env self (after_header w)) = Ret pods
        /\ conjunction_of_verdicts pods = Ret b)
  /\ (console_ok env ->
      snd (check_pods_health env self w)
      = (pods <-? snd (get_pod_status env self (after_header w)) ;;
         conjunction_of_verdicts pods)).
Proof.
  rewrite check_pods_health_unfold. split.
  - intros b.
    destruct (env_print env w); [|discriminate].
    destruct (env_print env (emit EvPrint w)); [|discriminate].
    destruct (get_pod_status env self (after_header w)) as [w1 [pods|e]];
      [|discriminate].
    cbn [snd]. intro H. exists pods. split; [reflexivity|].
    destruct pods as [|pod rest]; [exact H|].
    rewrite <- check_pods_health_of_is_conjunction.
    destruct (check_pods_health_of (pod :: rest)) as [all_healthy|e];
      [|discriminate H].
    destruct (env_print env w1); [|discriminate H].
    cbn [snd] in H.
    destruct (env_print env (emit EvPrint w1)); [exact H | discriminate H].
  - intro Hok. rewrite !Hok.
    destruct (get_pod_status env self (after_header w)) as [w1 [pods|e]];
      [|reflexivity].
    cbn [snd obind].
    rewrite <- check_pods_health_of_is_conjunction.
    destruct pods as [|pod rest]; [reflexivity|].
    destruct (check_pods_health_of (pod :: rest)); [|reflexivity].
    rewrite !Hok. reflexivity.
Qed.

Lemma check_pods_health_is_conjunction_witness :
  snd (check_pods_health (kubectl_prints "svcA 2/2 Running 0 5d") monitor w0)
  = (pods <-? snd (get_pod_status (kubectl_prints "svcA 2/2 Running 0 5d") monitor
                     (after_header w0)) ;;
     conjunction_of_verdicts pods).
Proof.
  apply (proj2 (check_pods_health_is_conjunction
                  (kubectl_prints "svcA 2/2 Running 0 5d") monitor w0)).
  intro w. reflexivity.
Defined.

(** Where every ready field has its separator the check returns. *)
Lemma check_pods_health_total pods :
  Forall (fun pod => (2 <= length (PyStr.split_on "/" (PodStatus.ready pod)))%nat) pods ->
  exists healthy, check_pods_health_of pods = Ret healthy.
Proof.
  intro H.
  assert (Hv : exists verdicts, omap pod_is_healthy pods = Ret verdicts).
  { induction H as [|pod rest Hpod _ IH]; [exists []; reflexivity|].
    destruct IH as [vs Hvs]. cbn [omap]. rewrite Hvs, pod_is_healthy_cases.
    destruct (String.eqb (PodStatus.status pod) "Running");
      [|eexists; reflexivity].
    destruct (PyStr.split_on "/" (PodStatus.ready pod)) as [|a [|b more]];
      simpl in Hpod; try lia.
    eexists; reflexivity. }
  destruct Hv as [vs Hvs]. unfold check_pods_health_of.
  destruct pods as [|pod rest]; [eexists; reflexivity|].
  rewrite check_pods_health_loop_spec, Hvs. eexists; reflexivity.
Qed.

(** C10.  [check_pods_health] is partial: kubectl succeeds and lists one
    running pod whose ready field is "1", without separator; the parser
    accepts the line, and the check raises [IndexError] instead of returning
    a verdict. *)
Theorem check_pods_health_raises_without_separator :
  exists output pod,
    parse_pod_listing output = Ret [pod]
    /\ PodStatus.ready pod = "1"
    /\ PyStr.split_on "/" (PodStatus.ready pod) = ["1"]
    /\ check_pods_health_of [pod] = Raise (IndexError "list index out of range")
    /\ snd (check_pods_health (kubectl_prints output) monitor w0)
       = Raise (IndexError "list index out of range").
Proof.
  exists "svcA 1 Running 0 5d",
         (PodStatus.mk "svcA" "1" "Running" 0 "5d" "default").
  repeat split.
Qed.

(* ===================================================================== *)
(** * The connectivity probe *)
(* ===================================================================== *)

Lemma new_events_app w w' evs :
  trace w' = (trace w ++ evs)%list -> new_events w w' = evs.
Proof.
  intro H. unfold new_events. rewrite H, skipn_app, skipn_all, Nat.sub_diag.
  reflexivity.
Qed.

Ltac norm_trace :=
  unfold ret; cbn [fst snd trace emit elapse now]; rewrite <- ?app_assoc; cbn [app].

Lemma test_http_service_trace env url timeout w :
  trace (fst (test_http_service env url (Some timeout) w))
  = (trace w ++ [EvHttpGet url timeout])%list.
Proof.
  unfold test_http_service, bind, try_except, time_time, requests_get.
  destruct (env_get env w url timeout) as [d [code|e]].
  - destruct (code =? 200); reflexivity.
  - cbn [handler].
    destruct (isinstance e "requests.exceptions.ConnectionError"); [reflexivity|].
    destruct (isinstance e "requests.exceptions.Timeout"); [reflexivity|].
    destruct (isinstance e "Exception"); reflexivity.
Qed.

Lemma test_port_connectivity_trace env host port timeout w :
  exists evs,
    tcp_events host port timeout evs
    /\ trace (fst (test_port_connectivity env host port (Some timeout) w))
       = (trace w ++ evs)%list.
Proof.
  unfold test_port_connectivity, bind, try_except, time_time, socket_socket,
    sock_settimeout, sock_connect_ex, sock_close, tcp_events.
  assert (Hh : forall (e : exn) (w1 : World),
             trace (fst (match handler
                  [ ("socket.timeout",
                     fun _ : exn => ret (false, "Connection timeout", inject_Z timeout));
                    ("Exception",
                     fun e0 : exn => ret (false, exn_str e0, inject_Z 0)) ] e with
                 | Some h => h w1
                 | None => (w1, Raise e)
                 end)) = trace w1).
  { intros e w1. cbn [handler].
    destruct (isinstance e "socket.timeout"); [reflexivity|].
    destruct (isinstance e "Exception"); reflexivity. }
  destruct (env_socket env w) as [[]|e].
  - destruct (timeout <? 0).
    + eexists. split; [right; left; reflexivity|].
      rewrite Hh. norm_trace. reflexivity.
    + destruct (9223372036854775807 <? timeout * 1000000000).
      * eexists. split; [right; left; reflexivity|].
        rewrite Hh. norm_trace. reflexivity.
      * destruct (env_connect_ex env _ host port) as [d [code|e]].
        -- eexists. split; [right; right; right; reflexivity|].
           destruct (code =? 0); norm_trace; reflexivity.
        -- eexists. split; [right; right; left; reflexivity|].
           rewrite Hh. norm_trace. reflexivity.
  - eexists. split; [left; reflexivity|].
    rewrite Hh. norm_trace. reflexivity.
Qed.

Lemma port_forward_service_run env self service_name local_port service_port w :
  port_forward_service env self service_name local_port service_port w =
  let cmd := port_forward_cmd service_name local_port service_port in
  let w1 := emit (EvPopen cmd (kubeconfig_path self)) w in
  match env_popen env w cmd with
  | Ret process =>
      (elapse (inject_Z 2) (emit (EvSleep 2) (emit (EvSpawned process) w1)),
       Ret process)
  | Raise e => (w1, Raise e)
  end.
Proof.
  unfold port_forward_service, bind, subprocess_Popen, time_sleep, ret.
  cbv zeta. destruct (env_popen env w _); reflexivity.
Qed.

(** The trace of a probe.  When the tunnel starts: its start, the process
    it gave, the settle delay, the network check, then [terminate] and
    [wait] on the tunnel.  When it does not start: the attempt only. *)
Lemma test_service_connectivity_trace env self service timeout w :
  let t := match timeout with Some t => t | None => 10 end in
  let cmd := port_forward_cmd (ServiceTest.name service) (local_port_of service)
               (ServiceTest.port service) in
  let w' := fst (test_service_connectivity env self service timeout w) in
  match snd (port_forward_service env self (ServiceTest.name service)
               (local_port_of service) (ServiceTest.port service) w) with
  | Ret process =>
      exists call_evs,
        probe_call_events service t call_evs
        /\ trace w' = (trace w ++ [EvPopen cmd (kubeconfig_path self);
                                    EvSpawned process; EvSleep 2]
                         ++ call_evs ++ [EvTerminate process; EvWait process])%list
  | Raise _ => trace w' = (trace w ++ [EvPopen cmd (kubeconfig_path self)])%list
  end.
Proof.
  intros t cmd w'. subst w'.
  unfold test_service_connectivity, test_service_connectivity_try.
  rewrite port_forward_service_run. fold t. fold cmd. cbv zeta.
  destruct (env_popen env w cmd) as [process|e]; cbn [snd].
  - set (w1 := elapse (inject_Z 2) (emit (EvSleep 2)
                 (emit (EvSpawned process)
                    (emit (EvPopen cmd (kubeconfig_path self)) w)))).
    assert (Hw1 : trace w1 = (trace w ++ [EvPopen cmd (kubeconfig_path self);
                                          EvSpawned process; EvSleep 2])%list)
      by (subst w1; norm_trace; reflexivity).
    assert (Hexc : forall (r : outcome probe_result) (w2 : World),
               trace (fst (try_except (fun w => (w, r))
                  [ ("Exception", fun e => ret (false, exn_str e, inject_Z 0)) ] w2))
               = trace w2).
    { intros [v|e] w2; unfold try_except; [reflexivity|]. cbn [handler].
      destruct (isinstance e "Exception"); reflexivity. }
    unfold probe_call_events.
    destruct (String.eqb (ServiceTest.service_type service) "http").
    + eexists. split; [reflexivity|].
      pose proof (test_http_service_trace env
                    ("http://localhost:" ++ PyStr.str_of_int (local_port_of service)
                       ++ ServiceTest.test_endpoint service) t w1) as Hc.
      destruct (test_http_service env _ (Some t) w1) as [w2 r]. cbn [fst] in Hc.
      specialize (Hexc r w2).
      destruct (try_except _ _ w2) as [w3 r3]. cbn [fst] in Hexc.
      unfold bind, terminate, wait. norm_trace.
      rewrite Hexc, Hc, Hw1. rewrite <- ?app_assoc. reflexivity.
    + destruct (test_port_connectivity_trace env "localhost" (local_port_of service) t w1)
        as (evs & Hevs & Hc).
      exists evs. split; [exact Hevs|].
      destruct (test_port_connectivity env _ _ (Some t) w1) as [w2 r]. cbn [fst] in Hc.
      specialize (Hexc r w2).
      destruct (try_except _ _ w2) as [w3 r3]. cbn [fst] in Hexc.
      unfold bind, terminate, wait. norm_trace.
      rewrite Hexc, Hc, Hw1. rewrite <- ?app_assoc. reflexivity.
  - unfold try_except. cbn [handler].
    destruct (isinstance e "Exception"); norm_trace; reflexivity.
Qed.

Lemma probe_call_events_no_release service t evs :
  probe_call_events service t evs -> filter is_release evs = [].
Proof.
  unfold probe_call_events, tcp_events.
  destruct (String.eqb (ServiceTest.service_type service) "http");
    [intros -> | intros [->|[->|[->| ->]]]]; reflexivity.
Qed.

(** C1.  Whenever [port_forward_service] returns a process handle, the
    events the probe adds end with [terminate] and [wait] on that handle,
    in this order, and nothing before them releases anything: each is
    invoked exactly once, whatever the HTTP or TCP call did, exceptions
    included. *)
Theorem probe_releases_tunnel_exactly_once
    (env : Env) (self : KubernetesMonitor) (service : ServiceTest.t)
    (timeout : option Z) (w : World) (process : Popen) :
  snd (port_forward_service env self (ServiceTest.name service)
         (local_port_of service) (ServiceTest.port service) w) = Ret process ->
  let evs := new_events w (fst (test_service_connectivity env self service timeout w)) in
  (exists before,
      evs = (before ++ [EvTerminate process; EvWait process])%list
      /\ filter is_release before = [])
  /\ filter is_release evs = [EvTerminate process; EvWait process].
Proof.
  intros Hstart evs.
  pose proof (test_service_connectivity_trace env self service timeout w) as H.
  cbv zeta in H. rewrite Hstart in H. destruct H as (call_evs & Hcall & Htrace).
  apply new_events_app in Htrace. fold evs in Htrace.
  pose proof (probe_call_events_no_release _ _ _ Hcall) as Hnone.
  split.
  - exists ([EvPopen (port_forward_cmd (ServiceTest.name service) (local_port_of service)
                        (ServiceTest.port service)) (kubeconfig_path self);
             EvSpawned process; EvSleep 2] ++ call_evs)%list.
    split.
    + rewrite Htrace. rewrite <- app_assoc. reflexivity.
    + cbn [app filter is_release]. exact Hnone.
  - rewrite Htrace. cbn [app filter is_release]. rewrite filter_app, Hnone.
    reflexivity.
Qed.

Lemma probe_releases_tunnel_exactly_once_witness :
  let evs := new_events w0
               (fst (test_service_connectivity
                       (tunnel_env (Raise KeyboardInterrupt) (Ret 0))
                       monitor frontend None w0)) in
  (exists before,
      evs = (before ++ [EvTerminate 4242; EvWait 4242])%list
      /\ filter is_release before = [])
  /\ filter is_release evs = [EvTerminate 4242; EvWait 4242].
Proof.
  apply (probe_releases_tunnel_exactly_once
           (tunnel_env (Raise KeyboardInterrupt) (Ret 0)) monitor frontend None w0 4242).
  reflexivity.
Defined.

(** C5.  For every service target the local tunnel port is
    [8000 + port]: the probe starts the tunnel with it, and every event of
    the probe that names a local port names this one. *)
Theorem local_port_is_8000_plus_port
    (env : Env) (self : KubernetesMonitor) (service : ServiceTest.t)
    (timeout : option Z) (w : World) :
  let local_port := 8000 + ServiceTest.port service in
  let evs := new_events w (fst (test_service_connectivity env self service timeout w)) in
  local_port_of service = local_port
  /\ (exists rest,
        evs = EvPopen (port_forward_cmd (ServiceTest.name service) local_port
                         (ServiceTest.port service)) (kubeconfig_path self) :: rest)
  /\ Forall (targets_local_port service local_port) evs.
Proof.
  intros local_port evs. split; [reflexivity|].
  pose proof (test_service_connectivity_trace env self service timeout w) as H.
  cbv zeta in H. fold local_port in H. change (local_port_of service) with local_port in H.
  destruct (snd (port_forward_service env self _ local_port _ w)) as [process|e].
  - destruct H as (call_evs & Hcall & Htrace).
    apply new_events_app in Htrace. fold evs in Htrace. rewrite Htrace.
    split; [eexists; reflexivity|].
    cbn [app]. repeat constructor.
    apply Forall_app. split; [|repeat constructor].
    unfold probe_call_events, tcp_events in Hcall.
    change (local_port_of service) with local_port in Hcall.
    destruct (String.eqb (ServiceTest.service_type service) "http");
      [|destruct Hcall as [Hcall|[Hcall|[Hcall|Hcall]]]];
      rewrite Hcall; repeat constructor.
  - apply new_events_app in H. fold evs in H. rewrite H.
    split; [eexists; reflexivity|]. repeat constructor.
Qed.

(** Where a [connect_ex] can stand in a list of events of known length:
    either nowhere, or behind the events that the goal then names. *)
Ltac split_at_connect H before :=
  destruct before as [|? before]; cbn [app] in H;
  [ first [ discriminate H
          | match goal with
            | |- exists b, ?L = _ => exists (removelast L); reflexivity
            end ]
  | first [ discriminate H
          | injection H as ? H; subst; split_at_connect H before ] ].

Lemma tcp_events_connect_follows host port timeout evs :
  tcp_events host port timeout evs -> connect_follows_settimeout timeout evs.
Proof.
  intros [->|[->|[->| ->]]] before h p after H; split_at_connect H before.
Qed.

(** C2, as the code has it.  Every timeout the probe hands to the network,
    to the socket of a TCP target as to the GET of an HTTP target, is the
    probe's own [timeout] argument, 10 when left out, and the probe connects
    only directly after it has set that timeout on the socket;  5 is what
    [test_port_connectivity] sets before it connects when it is called
    without a timeout, which the probe never does. *)
Theorem probe_timeout_is_its_argument
    (env : Env) (self : KubernetesMonitor) (w : World) :
  (forall service timeout,
      let t := match timeout with Some t' => t' | None => 10 end in
      let evs :=
        new_events w (fst (test_service_connectivity env self service timeout w)) in
      (forall ev t', In ev evs -> timeout_of ev = Some t' -> t' = t)
      /\ connect_follows_settimeout t evs)
  /\ (forall host port,
        let evs := new_events w (fst (test_port_connectivity env host port None w)) in
        (forall ev t', In ev evs -> timeout_of ev = Some t' -> t' = 5)
        /\ connect_follows_settimeout 5 evs).
Proof.
  split.
  - intros service timeout t evs.
    pose proof (test_service_connectivity_trace env self service timeout w) as H.
    cbv zeta in H. fold t in H.
    destruct (snd (port_forward_service env self _ _ _ w)) as [process|e].
    + destruct H as (call_evs & Hcall & Htrace).
      apply new_events_app in Htrace. fold evs in Htrace. rewrite Htrace.
      unfold probe_call_events, tcp_events in Hcall.
      destruct (String.eqb (ServiceTest.service_type service) "http");
        [|destruct Hcall as [Hcall|[Hcall|[Hcall|Hcall]]]];
        rewrite Hcall; cbn [app]; (split;
          [ intros ev t' Hin Ht; cbn [In] in Hin;
            repeat (destruct Hin as [<-|Hin]; [cbn in Ht; congruence|]);
            destruct Hin
          | intros before h p after Hsplit; split_at_connect Hsplit before ]).
    + apply new_events_app in H. fold evs in H. rewrite H. split.
      * intros ev t' [<-|[]] Ht. discriminate Ht.
      * intros before h p after Hsplit. split_at_connect Hsplit before.
  - intros host port evs.
    change (test_port_connectivity env host port None w)
      with (test_port_connectivity env host port (Some 5) w) in evs.
    destruct (test_port_connectivity_trace env host port 5 w) as (call_evs & Hevs & Htrace).
    apply new_events_app in Htrace. fold evs in Htrace. rewrite Htrace. split.
    + intros ev t' Hin Ht.
      destruct Hevs as [->|[->|[->| ->]]]; cbn [In] in Hin;
        repeat (destruct Hin as [<-|Hin]; [cbn in Ht; congruence|]);
        destruct Hin.
    + apply (tcp_events_connect_follows host port). exact Hevs.
Qed.

Lemma probe_timeout_is_its_argument_witness :
  In (EvSetTimeout 10)
     (new_events w0 (fst (test_service_connectivity (tunnel_env (Ret 200) (Ret 0))
                            monitor cart None w0)))
  /\ 10 = match @None Z with Some t' => t' | None => 10 end.
Proof.
  assert (Hin : In (EvSetTimeout 10)
            (new_events w0 (fst (test_service_connectivity (tunnel_env (Ret 200) (Ret 0))
                                   monitor cart None w0))))
    by (vm_compute; tauto).
  split; [exact Hin|].
  apply (proj1 (proj1 (probe_timeout_is_its_argument (tunnel_env (Ret 200) (Ret 0))
                         monitor w0) cart None)
           (EvSetTimeout 10) 10).
  - exact Hin.
  - reflexivity.
Defined.

(** C2, as stated, fails: probing the TCP target [cart] the way
    [run_connectivity_tests] does, the socket gets a timeout of 10 seconds,
    the one of HTTP targets, and no timeout of 5 seconds occurs. *)
Lemma tcp_probe_timeout_is_10_not_5 :
  ServiceTest.service_type cart <> "http"
  /\ new_events w0 (fst (test_service_connectivity (tunnel_env (Ret 200) (Ret 0))
                           monitor cart None w0))
     = [ EvPopen ["kubectl"; "port-forward"; "service/cart"; "16883:8883"]
           "kind-kubeconfig.yaml";
         EvSpawned 4242;
         EvSleep 2;
         EvSocket; EvSetTimeout 10; EvConnectEx "localhost" 16883; EvSocketClose;
         EvTerminate 4242; EvWait 4242 ]
  /\ ~ (forall env self service timeout w ev t,
          ServiceTest.service_type service <> "http" ->
          In ev (new_events w (fst (test_service_connectivity env self service timeout w))) ->
          timeout_of ev = Some t -> t = 5).
Proof.
  split; [discriminate|]. split; [reflexivity|].
  intro H.
  specialize (H (tunnel_env (Ret 200) (Ret 0)) monitor cart None w0
                (EvSetTimeout 10) 10).
  assert (E : 10 = 5); [|discriminate E].
  apply H.
  - discriminate.
  - vm_compute. tauto.
  - reflexivity.
Qed.

(** C6, as the code has it.  The derivation is injective: two targets
    with different declared ports get different local ports.  In the
    registry, two distinct targets with the same local port can only be
    [email] and [order]. *)
Theorem distinct_ports_give_distinct_local_ports (s1 s2 : ServiceTest.t) :
  (ServiceTest.port s1 <> ServiceTest.port s2 -> local_port_of s1 <> local_port_of s2)
  /\ (forall kubeconfig,
        In s1 (services (init kubeconfig)) -> In s2 (services (init kubeconfig)) ->
        s1 <> s2 -> local_port_of s1 = local_port_of s2 ->
        (s1 = email /\ s2 = order) \/ (s1 = order /\ s2 = email)).
Proof.
  split.
  - unfold local_port_of. lia.
  - intros kubeconfig H1 H2 Hne Heq. cbn [services init In] in H1, H2.
    repeat (destruct H1 as [<-|H1]);
      try contradiction;
      repeat (destruct H2 as [<-|H2]);
      try contradiction;
      try (exfalso; apply Hne; reflexivity);
      try (vm_compute in Heq; discriminate Heq);
      auto.
Qed.

Lemma distinct_ports_give_distinct_local_ports_witness :
  local_port_of frontend <> local_port_of cart.
Proof.
  apply (proj1 (distinct_ports_give_distinct_local_ports frontend cart)).
  simpl. lia.
Defined.

(** C6, as stated, fails: [email] and [order] are distinct targets of the
    registry and have the same local tunnel port, 16885. *)
Lemma email_order_share_local_port :
  In email (services monitor) /\ In order (services monitor)
  /\ email <> order
  /\ local_port_of email = 16885 /\ local_port_of order = 16885
  /\ ~ (forall s1 s2, In s1 (services monitor) -> In s2 (services monitor) ->
          s1 <> s2 -> local_port_of s1 <> local_port_of s2).
Proof.
  assert (Hin1 : In email (services monitor)) by (simpl; tauto).
  assert (Hin2 : In order (services monitor)) by (simpl; tauto).
  assert (Hne : email <> order) by discriminate.
  repeat split; try assumption.
  intro H. exact (H email order Hin1 Hin2 Hne eq_refl).
Qed.

(* ===================================================================== *)
(** * The HTTP check *)
(* ===================================================================== *)

(** The HTTP check by the answer of [requests.get]: the first [except]
    clause that matches decides. *)
Lemma test_http_service_outcome env url timeout w :
  snd (test_http_service env url (Some timeout) w) =
  match env_get env w url timeout with
  | (d, Ret status_code) =>
      Ret (status_code =? 200, "HTTP " ++ PyStr.str_of_int status_code,
           (now w + d - now w)%Q)
  | (_, Raise e) =>
      if isinstance e "requests.exceptions.ConnectionError"
      then Ret (false, "Connection refused", inject_Z 0)
      else if isinstance e "requests.exceptions.Timeout"
      then Ret (false, "Request timeout", inject_Z timeout)
      else if isinstance e "Exception"
      then Ret (false, exn_str e, inject_Z 0)
      else Raise e
  end.
Proof.
  unfold test_http_service, bind, try_except, time_time, requests_get.
  destruct (env_get env w url timeout) as [d [code|e]].
  - destruct (code =? 200); reflexivity.
  - cbn [handler].
    destruct (isinstance e "requests.exceptions.ConnectionError"); [reflexivity|].
    destruct (isinstance e "requests.exceptions.Timeout"); [reflexivity|].
    destruct (isinstance e "Exception"); reflexivity.
Qed.

(** X15.  A timeout that is no connection error is reported with the configured
    timeout as elapsed time, whatever the clock measured. *)
Lemma test_http_service_timeout env url timeout w d e :
  env_get env w url timeout = (d, Raise e) ->
  isinstance e "requests.exceptions.ConnectionError" = false ->
  isinstance e "requests.exceptions.Timeout" = true ->
  snd (test_http_service env url (Some timeout) w)
  = Ret (false, "Request timeout", inject_Z timeout).
Proof.
  intros Hget Hc Ht. rewrite test_http_service_outcome, Hget, Hc, Ht. reflexivity.
Qed.

(** X14.  The HTTP check succeeds exactly on status 200. *)
Lemma test_http_service_success_iff_200 env url timeout w :
  (exists message elapsed,
      snd (test_http_service env url (Some timeout) w) = Ret (true, message, elapsed))
  <-> snd (env_get env w url timeout) = Ret 200.
Proof.
  rewrite test_http_service_outcome.
  destruct (env_get env w url timeout) as [d [code|e]]; cbn [snd].
  - split.
    + intros (m & el & H). inversion H as [[Hc Hm Hel]].
      apply Z.eqb_eq in Hc. rewrite Hc. reflexivity.
    + intro H. inversion H. eexists _, _. reflexivity.
  - split; [|discriminate].
    intros (m & el & H).
    destruct (isinstance e "requests.exceptions.ConnectionError"); [discriminate H|].
    destruct (isinstance e "requests.exceptions.Timeout"); [discriminate H|].
    destruct (isinstance e "Exception"); discriminate H.
Qed.

(** C9, where the code departs from it.  [requests.get] gives up after the
    configured 10 seconds while connecting and raises [ConnectTimeout], which
    is a [Timeout] and a [ConnectionError]: the [ConnectionError] clause
    comes first, and the check reports "Connection refused" with elapsed 0
    instead of "Request timeout" with elapsed 10; so does the probe. *)
Theorem http_connect_timeout_reported_as_refused :
  let e := requests_ConnectTimeout "timed out" in
  let env := tunnel_env (Raise e) (Ret 0) in
  isinstance e "requests.exceptions.Timeout" = true
  /\ snd (test_http_service env "http://localhost:16080/" (Some 10) w0)
     = Ret (false, "Connection refused", inject_Z 0)
  /\ snd (test_service_connectivity env monitor frontend None w0)
     = Ret (false, "Connection refused", inject_Z 0)
  /\ snd (test_service_connectivity (tunnel_env (Raise (requests_ReadTimeout "timed out")) (Ret 0))
            monitor frontend None w0)
     = Ret (false, "Request timeout", inject_Z 10).
Proof. repeat split. Qed.

(* ===================================================================== *)
(** * Running kubectl *)
(* ===================================================================== *)

(** [run_kubectl_command] by the answer of [subprocess.run]. *)
Lemma run_kubectl_command_run env self command w :
  run_kubectl_command env self command w =
  (elapse (fst (env_run env w command))
     (emit (EvRun command (kubeconfig_path self) 30) w),
   match snd (env_run env w command) with
   | Ret (returncode, stdout) => Ret (returncode =? 0, PyStr.strip stdout)
   | Raise e =>
       if isinstance e "subprocess.TimeoutExpired" then Ret (false, "Command timeout")
       else if isinstance e "Exception" then Ret (false, exn_str e)
       else Raise e
   end).
Proof.
  unfold run_kubectl_command, try_except, bind, subprocess_run, ret.
  destruct (env_run env w command) as [d [[rc out]|e]]; cbn [fst snd]; [reflexivity|].
  cbn [handler].
  destruct (isinstance e "subprocess.TimeoutExpired"); [reflexivity|].
  destruct (isinstance e "Exception"); reflexivity.
Qed.

(** X1.  Every call of [run_kubectl_command] runs the given command once,
    with the monitor's kubeconfig and a timeout of 30 seconds, and nothing
    else; an exception that leaves it is no instance of [Exception], and a
    [TimeoutExpired] becomes the result [(False, "Command timeout")]. *)
Theorem run_kubectl_command_one_call_never_fatal
    (env : Env) (self : KubernetesMonitor) (command : list string) (w : World) :
  new_events w (fst (run_kubectl_command env self command w))
  = [EvRun command (kubeconfig_path self) 30]
  /\ (forall e, snd (run_kubectl_command env self command w) = Raise e ->
                isinstance e "Exception" = false)
  /\ (forall e, snd (env_run env w command) = Raise e ->
                isinstance e "subprocess.TimeoutExpired" = true ->
                snd (run_kubectl_command env self command w)
                = Ret (false, "Command timeout")).
Proof.
  rewrite run_kubectl_command_run. cbn [fst snd].
  split; [|split].
  - apply new_events_app. reflexivity.
  - intros e H. destruct (snd (env_run env w command)) as [[rc out]|e0];
      [discriminate H|].
    destruct (isinstance e0 "subprocess.TimeoutExpired"); [discriminate H|].
    destruct (isinstance e0 "Exception") eqn:E; [discriminate H|].
    inversion H; subst. exact E.
  - intros e He Ht. rewrite He, Ht. reflexivity.
Qed.

Lemma run_kubectl_command_one_call_never_fatal_witness :
  snd (run_kubectl_command
         (scripted_env (Raise (subprocess_TimeoutExpired "timed out after 30 seconds"))
            (Ret 4242) (Ret 200) (Ret tt) (Ret 0))
         monitor get_pods_command w0)
  = Ret (false, "Command timeout").
Proof.
  apply (proj2 (proj2 (run_kubectl_command_one_call_never_fatal
                         (scripted_env (Raise (subprocess_TimeoutExpired "timed out after 30 seconds"))
                            (Ret 4242) (Ret 200) (Ret tt) (Ret 0))
                         monitor get_pods_command w0))
           (subprocess_TimeoutExpired "timed out after 30 seconds"));
    reflexivity.
Defined.

(* ===================================================================== *)
(** * More on the pod status parser *)
(* ===================================================================== *)

Lemma rstrip_all_space s : all_space s = true -> PyStr.rstrip s = EmptyString.
Proof.
  induction s as [|c r IH]; simpl; [reflexivity|].
  intro H. apply andb_prop in H. destruct H as [Hc Hr].
  rewrite (IH Hr), Hc. reflexivity.
Qed.

Lemma strip_all_space s : all_space s = true -> PyStr.strip s = EmptyString.
Proof. intro H. unfold PyStr.strip. rewrite (rstrip_all_space _ H). reflexivity. Qed.

(** Fetching the pods when kubectl fails or prints nothing. *)
Lemma get_pod_status_nothing env self w :
  match snd (env_run env w get_pods_command) with
  | Ret (returncode, stdout) => returncode <> 0 \/ all_space stdout = true
  | Raise e => isinstance e "Exception" = true
  end ->
  snd (get_pod_status env self w) <> Ret [] ->
  exists e, snd (get_pod_status env self w) = Raise e /\ env_print env
              (elapse (fst (env_run env w get_pods_command))
                 (emit (EvRun get_pods_command (kubeconfig_path self) 30) w)) = Raise e.
Proof.
  intros H. rewrite get_pod_status_unfold. fold get_pods_command.
  rewrite run_kubectl_command_run.
  set (w1 := elapse _ _).
  destruct (snd (env_run env w get_pods_command)) as [[rc out]|e].
  - destruct (rc =? 0) eqn:Erc.
    + destruct H as [H|H]; [apply Z.eqb_eq in Erc; contradiction|].
      rewrite (strip_all_space _ H). intro Hn. exfalso. apply Hn. reflexivity.
    + cbn [snd]. destruct (env_print env w1) as [u|e]; intro Hn;
        [exfalso; apply Hn; reflexivity | exists e; split; reflexivity].
  - destruct (isinstance e "subprocess.TimeoutExpired").
    + cbn [snd]. destruct (env_print env w1) as [u|e']; intro Hn;
        [exfalso; apply Hn; reflexivity | exists e'; split; reflexivity].
    + rewrite H. cbn [snd]. destruct (env_print env w1) as [u|e']; intro Hn;
        [exfalso; apply Hn; reflexivity | exists e'; split; reflexivity].
Qed.

(** X2.  The pod check fails closed: when kubectl exits with a non-zero
    code, prints nothing but whitespace, times out or fails with any
    [Exception], [check_pods_health] never returns [True]; it returns
    [False] whenever the console takes its prints. *)
Theorem check_pods_health_fails_closed
    (env : Env) (self : KubernetesMonitor) (w : World) :
  match snd (env_run env (after_header w) get_pods_command) with
  | Ret (returncode, stdout) => returncode <> 0 \/ all_space stdout = true
  | Raise e => isinstance e "Exception" = true
  end ->
  snd (check_pods_health env self w) <> Ret true
  /\ (console_ok env -> snd (check_pods_health env self w) = Ret false).
Proof.
  intro H. pose proof (get_pod_status_nothing env self (after_header w) H) as Hg.
  rewrite check_pods_health_unfold. split.
  - destruct (env_print env w); [|discriminate].
    destruct (env_print env (emit EvPrint w)); [|discriminate].
    destruct (get_pod_status env self (after_header w)) as [w1 [[|pod rest]|e]];
      cbn [snd] in Hg |- *; try discriminate.
    destruct Hg as (e & He & _); [discriminate | discriminate He].
  - intro Hok. rewrite !Hok.
    destruct (get_pod_status env self (after_header w)) as [w1 [[|pod rest]|e]];
      cbn [snd] in Hg |- *; [reflexivity | |].
    + destruct Hg as (e & He & _); [discriminate | discriminate He].
    + destruct Hg as (e' & _ & He'); [discriminate|].
      rewrite Hok in He'. discriminate He'.
Qed.

Lemma check_pods_health_fails_closed_witness :
  snd (check_pods_health
         (scripted_env (Ret (1, "svcA 2/2 Running 0 5d"))
            (Ret 4242) (Ret 200) (Ret tt) (Ret 0)) monitor w0)
  = Ret false.
Proof.
  refine (proj2 (check_pods_health_fails_closed
                   (scripted_env (Ret (1, "svcA 2/2 Running 0 5d"))
                      (Ret 4242) (Ret 200) (Ret tt) (Ret 0)) monitor w0 _) _).
  - simpl. left. discriminate.
  - intro w. reflexivity.
Defined.

Lemma pod_of_fields_returns fields :
  enough_fields fields = true ->
  (exists pod, pod_of_fields fields = Ret pod)
  <-> PyStr.int (nth 3 fields "") <> None.
Proof.
  unfold enough_fields. intro H.
  destruct fields as [|a [|b [|c [|d [|e rest]]]]]; simpl in H; try discriminate.
  simpl. destruct (PyStr.int d).
  - split; [discriminate | eexists; reflexivity].
  - split; [intros [pod Hp]; discriminate Hp | intro Hn; contradiction].
Qed.

Lemma get_pod_status_loop_returns lines : forall pods,
  (exists result, get_pod_status_loop lines pods = Ret result)
  <-> Forall convertible_line lines.
Proof.
  induction lines as [|line rest IH]; intro pods.
  - simpl. split; [constructor | eexists; reflexivity].
  - rewrite get_pod_status_loop_step.
    destruct (enough_fields (PyStr.split line)) eqn:E.
    + pose proof (pod_of_fields_returns _ E) as Hp.
      destruct (pod_of_fields (PyStr.split line)) as [pod|e]; simpl.
      * rewrite IH. split.
        -- intro Hrest. constructor; [|exact Hrest].
           intros _. apply Hp. eexists; reflexivity.
        -- intro Hall. inversion Hall. assumption.
      * split.
        -- intros [result Hr]. discriminate Hr.
        -- intro Hall. inversion Hall as [|? ? Hline _]; subst.
           unfold convertible_line in Hline. apply Hline in E.
           apply Hp in E. destruct E as [pod Hpod]. discriminate Hpod.
    + rewrite IH. split.
      * intro Hrest. constructor; [|exact Hrest].
        unfold convertible_line. rewrite E. discriminate.
      * intro Hall. inversion Hall. assumption.
Qed.

(** X3.  The parser returns a list exactly when every line with five
    fields or more has an integer as its fourth field; otherwise it
    raises. *)
Theorem parse_pod_listing_returns_iff (output : string) :
  (exists pods, parse_pod_listing output = Ret pods)
  <-> Forall convertible_line (PyStr.split_on newline output).
Proof. unfold parse_pod_listing. apply get_pod_status_loop_returns. Qed.

Lemma split_fields_clean s : Forall clean_field (PyStr.split s).
Proof.
  unfold clean_field.
  induction s as [|c r IH]; [constructor|].
  cbn [PyStr.split].
  destruct (PyStr.is_space c) eqn:Ec; [exact IH|].
  assert (Hone : String c EmptyString <> EmptyString
                 /\ has_space (String c EmptyString) = false)
    by (split; [discriminate | simpl; rewrite Ec; reflexivity]).
  destruct r as [|c' r']; [constructor; [exact Hone | constructor]|].
  destruct (PyStr.is_space c'); [constructor; [exact Hone | exact IH]|].
  destruct (PyStr.split (String c' r')) as [|word words];
    [constructor; [exact Hone | constructor]|].
  inversion IH as [|? ? [_ Hw] Hws]; subst.
  constructor; [|exact Hws].
  split; [discriminate|]. simpl. rewrite Ec, Hw. reflexivity.
Qed.

Lemma pod_of_fields_clean fields pod :
  Forall clean_field fields -> pod_of_fields fields = Ret pod -> clean_pod pod.
Proof.
  intros Hf Hp.
  destruct fields as [|a [|b [|c [|d [|e rest]]]]]; try discriminate Hp.
  simpl in Hp. destruct (PyStr.int d); [|discriminate Hp].
  inversion Hp; subst. unfold clean_pod. simpl.
  repeat match goal with
         | H : Forall _ (_ :: _) |- _ => inversion H; clear H; subst
         end.
  repeat split; try assumption;
    match goal with H : clean_field _ |- _ => apply H end.
Qed.

Lemma get_pod_status_loop_clean lines : forall pods result,
  Forall clean_pod pods ->
  get_pod_status_loop lines pods = Ret result ->
  Forall clean_pod result.
Proof.
  induction lines as [|line rest IH]; intros pods result Hpods Hr.
  - simpl in Hr. inversion Hr; subst. exact Hpods.
  - rewrite get_pod_status_loop_step in Hr.
    destruct (enough_fields (PyStr.split line)); [|eapply IH; eassumption].
    destruct (pod_of_fields (PyStr.split line)) as [pod|e] eqn:Ep;
      [|discriminate Hr].
    simpl in Hr. eapply IH; [|exact Hr].
    apply Forall_app. split; [exact Hpods|].
    constructor; [|constructor].
    eapply pod_of_fields_clean; [apply split_fields_clean | exact Ep].
Qed.

(** X4.  Every record the parser returns has a non-empty name, ready
    field, phase and age without any whitespace in them, and the namespace
    "default", whatever kubectl printed. *)
Theorem parsed_pods_are_clean (output : string) (pods : list PodStatus.t) :
  parse_pod_listing output = Ret pods -> Forall clean_pod pods.
Proof.
  unfold parse_pod_listing. apply get_pod_status_loop_clean. constructor.
Qed.

Lemma parsed_pods_are_clean_witness :
  Forall clean_pod [ PodStatus.mk "svcA" "2/2" "Running" 0 "5d" "default" ].
Proof.
  apply (parsed_pods_are_clean "  svcA   2/2 Running 0 5d   10.244.0.7 node1 ").
  reflexivity.
Defined.

(* ===================================================================== *)
(** * More on pod health *)
(* ===================================================================== *)

Lemma pod_is_healthy_raises pod :
  (forall e, pod_is_healthy pod = Raise e -> e = IndexError "list index out of range")
  /\ ((exists e, pod_is_healthy pod = Raise e) <-> running_without_separator pod).
Proof.
  rewrite pod_is_healthy_cases. unfold running_without_separator.
  pose proof (PyStrFacts.split_on_nonempty "/" (PodStatus.ready pod)) as Hne.
  destruct (String.eqb_spec (PodStatus.status pod) "Running") as [Hs|Hs].
  - destruct (PyStr.split_on "/" (PodStatus.ready pod)) as [|a [|b rest]];
      [contradiction| |].
    + split; [intros e H; inversion H; reflexivity|].
      split; [intros _; split; [exact Hs | reflexivity] | eexists; reflexivity].
    + split; [intros e H; discriminate H|].
      split; [intros [e H]; discriminate H | intros [_ H]; discriminate H].
  - split; [intros e H; discriminate H|].
    split; [intros [e H]; discriminate H | intros [H _]; contradiction].
Qed.

Lemma check_pods_health_loop_raises pods : forall all_healthy,
  (forall e, check_pods_health_loop pods all_healthy = Raise e ->
             e = IndexError "list index out of range")
  /\ ((exists e, check_pods_health_loop pods all_healthy = Raise e)
      <-> Exists running_without_separator pods).
Proof.
  induction pods as [|pod rest IH]; intro flag.
  - simpl. split; [intros e H; discriminate H|].
    split; [intros [e H]; discriminate H | intro H; inversion H].
  - cbn [check_pods_health_loop].
    destruct (pod_is_healthy_raises pod) as [Hidx Hiff].
    destruct (pod_is_healthy pod) as [healthy|e0] eqn:Ep; simpl.
    + assert (Hnot : ~ running_without_separator pod)
        by (intro Hbad; apply Hiff in Hbad; destruct Hbad as [e He]; discriminate He).
      assert (Hex : Exists running_without_separator (pod :: rest)
                    <-> Exists running_without_separator rest).
      { split; [intro H; inversion H; [contradiction | assumption]
               | intro H; apply Exists_cons_tl; exact H]. }
      rewrite Hex. destruct healthy; apply IH.
    + split; [intros e H; inversion H; subst; apply Hidx; reflexivity|].
      split; [intros _; apply Exists_cons_hd; apply Hiff; eexists; reflexivity
             | intros _; eexists; reflexivity].
Qed.

Lemma check_pods_health_of_raises pods :
  (forall e, check_pods_health_of pods = Raise e ->
             e = IndexError "list index out of range")
  /\ ((exists e, check_pods_health_of pods = Raise e)
      <-> Exists running_without_separator pods).
Proof.
  destruct pods as [|pod rest].
  - simpl. split; [intros e H; discriminate H|].
    split; [intros [e H]; discriminate H | intro H; inversion H].
  - apply (check_pods_health_loop_raises (pod :: rest) true).
Qed.

(** X5.  On a console that takes its prints, [check_pods_health] raises
    exactly when fetching the pods raises (a non-numeric restart count, or an
    exception of kubectl that is no [Exception]), or when some fetched pod
    is in phase "Running" with a ready field that has no "/"; in the latter
    case the exception is [IndexError].  A pod in any other phase never makes
    it raise, whatever its ready field. *)
Theorem check_pods_health_raises_iff
    (env : Env) (self : KubernetesMonitor) (w : World) :
  console_ok env ->
  ((exists e, snd (check_pods_health env self w) = Raise e)
   <-> (exists e, snd (get_pod_status env self (after_header w)) = Raise e)
       \/ (exists pods,
             snd (get_pod_status env self (after_header w)) = Ret pods
             /\ Exists running_without_separator pods))
  /\ (forall pods e,
        snd (get_pod_status env self (after_header w)) = Ret pods ->
        snd (check_pods_health env self w) = Raise e ->
        e = IndexError "list index out of range").
Proof.
  intro Hok. rewrite check_pods_health_unfold, !Hok.
  destruct (get_pod_status env self (after_header w)) as [w1 [pods|e0]]; cbn [snd].
  - destruct (check_pods_health_of_raises pods) as [Hidx Hiff].
    assert (Hsame : forall e,
               snd (match pods with
                    | [] => (w1, Ret false)
                    | _ :: _ =>
                        match check_pods_health_of pods with
                        | Ret all_healthy =>
                            match env_print env w1 with
                            | Ret _ =>
                                (emit EvPrint (emit EvPrint w1),
                                 match env_print env (emit EvPrint w1) with
                                 | Ret _ => Ret all_healthy
                                 | Raise e => Raise e
                                 end)
                            | Raise e => (emit EvPrint w1, Raise e)
                            end
                        | Raise e => (w1, Raise e)
                        end
                    end) = Raise e
               <-> check_pods_health_of pods = Raise e).
    { intro e. destruct pods as [|pod rest]; [split; discriminate|].
      destruct (check_pods_health_of (pod :: rest)); [|reflexivity].
      rewrite !Hok. split; discriminate. }
    split.
    + split.
      * intros [e H]. right. exists pods. split; [reflexivity|].
        apply Hiff. exists e. apply Hsame. exact H.
      * intros [[e H]|(pods' & Hp & Hex)]; [discriminate H|].
        inversion Hp; subst pods'. apply Hiff in Hex. destruct Hex as [e He].
        exists e. apply Hsame. exact He.
    + intros pods' e Hp H. apply Hidx. apply Hsame. exact H.
  - split.
    + split; [intros _; left; exists e0; reflexivity | intros _; exists e0; reflexivity].
    + intros pods e H. discriminate H.
Qed.

Lemma check_pods_health_raises_iff_witness :
  exists e, snd (check_pods_health (kubectl_prints "svcA 1 Running 0 5d") monitor w0)
            = Raise e.
Proof.
  refine (proj2 (proj1 (check_pods_health_raises_iff
                          (kubectl_prints "svcA 1 Running 0 5d") monitor w0 _)) _).
  - intro w. reflexivity.
  - right. exists [PodStatus.mk "svcA" "1" "Running" 0 "5d" "default"].
    split; [reflexivity|]. constructor. split; reflexivity.
Defined.

(* ===================================================================== *)
(** * More on the network checks and the probe *)
(* ===================================================================== *)

Lemma test_http_service_timeout_witness :
  snd (test_http_service (tunnel_env (Raise (requests_ReadTimeout "read timed out")) (Ret 0))
         "http://localhost:16080/" (Some 10) w0)
  = Ret (false, "Request timeout", inject_Z 10).
Proof.
  apply (test_http_service_timeout
           (tunnel_env (Raise (requests_ReadTimeout "read timed out")) (Ret 0))
           "http://localhost:16080/" 10 w0 1%Q (requests_ReadTimeout "read timed out"));
    reflexivity.
Defined.

(** [test_port_connectivity] by the answers of the socket calls. *)
Lemma test_port_connectivity_run env host port timeout w :
  test_port_connectivity env host port (Some timeout) w =
  let w1 := emit EvSocket w in
  match env_socket env w with
  | Raise e => (w1, tcp_recover timeout e)
  | Ret _ =>
      let w2 := emit (EvSetTimeout timeout) w1 in
      if timeout <? 0
      then (w2, Ret (false, "Timeout value out of range", inject_Z 0))
      else if 9223372036854775807 <? timeout * 1000000000
      then (w2, Ret (false, "timestamp too large to convert to C _PyTime_t",
                     inject_Z 0))
      else
        let w3 := elapse (fst (env_connect_ex env w2 host port))
                    (emit (EvConnectEx host port) w2) in
        match snd (env_connect_ex env w2 host port) with
        | Ret code =>
            (emit EvSocketClose w3,
             Ret (code =? 0, if code =? 0 then "Port open" else "Port closed",
                  (now w3 - now w)%Q))
        | Raise e => (w3, tcp_recover timeout e)
        end
  end.
Proof.
  unfold test_port_connectivity, bind, try_except, time_time, socket_socket,
    sock_settimeout, sock_connect_ex, sock_close, tcp_recover, ret.
  cbv zeta.
  destruct (env_socket env w) as [[]|e].
  - destruct (timeout <? 0); [reflexivity|].
    destruct (9223372036854775807 <? timeout * 1000000000); [reflexivity|].
    destruct (env_connect_ex env _ host port) as [d [code|e]]; cbn [fst snd].
    + destruct (code =? 0); reflexivity.
    + cbn [handler]. destruct (isinstance e "socket.timeout"); [reflexivity|].
      destruct (isinstance e "Exception"); reflexivity.
  - cbn [handler]. destruct (isinstance e "socket.timeout"); [reflexivity|].
    destruct (isinstance e "Exception"); reflexivity.
Qed.

Lemma tcp_recover_not_success timeout e message elapsed :
  tcp_recover timeout e <> Ret (true, message, elapsed).
Proof.
  unfold tcp_recover. destruct (isinstance e "socket.timeout"); [discriminate|].
  destruct (isinstance e "Exception"); discriminate.
Qed.

(** X6.  The TCP check succeeds exactly when the socket could be created,
    the timeout is one that [settimeout] takes (not negative, and not beyond
    [max_socket_timeout]) and [connect_ex] returns 0.  Any other error
    indicator, and any exception, gives failure. *)
Theorem test_port_connectivity_success_iff
    (env : Env) (host : string) (port timeout : Z) (w : World) :
  (exists message elapsed,
      snd (test_port_connectivity env host port (Some timeout) w)
      = Ret (true, message, elapsed))
  <-> (exists u, env_socket env w = Ret u)
      /\ 0 <= timeout <= max_socket_timeout
      /\ snd (env_connect_ex env (emit (EvSetTimeout timeout) (emit EvSocket w)) host port)
         = Ret 0.
Proof.
  rewrite test_port_connectivity_run. cbv zeta.
  destruct (env_socket env w) as [u|e]; cbn [snd].
  - unfold max_socket_timeout.
    destruct (Z.ltb_spec timeout 0) as [Hneg|Hpos]; cbn [snd].
    + split; [intros (m & el & H); discriminate H | intros (_ & H & _); lia].
    + destruct (Z.ltb_spec 9223372036854775807 (timeout * 1000000000))
        as [Hbig|Hfit]; cbn [snd].
      * split; [intros (m & el & H); discriminate H | intros (_ & H & _); lia].
      * destruct (snd (env_connect_ex env _ host port)) as [code|e]; cbn [snd].
        -- split.
           ++ intros (m & el & H). inversion H as [[Hc Hm Hel]].
              apply Z.eqb_eq in Hc. subst code.
              split; [eexists; reflexivity | split; [lia | reflexivity]].
           ++ intros (_ & _ & H). inversion H. eexists _, _. reflexivity.
        -- split.
           ++ intros (m & el & H). exfalso. exact (tcp_recover_not_success _ _ _ _ H).
           ++ intros (_ & _ & H). discriminate H.
  - split.
    + intros (m & el & H). exfalso. exact (tcp_recover_not_success _ _ _ _ H).
    + intros ([u H] & _). discriminate H.
Qed.

Lemma test_port_connectivity_success_trace env host port timeout w message elapsed :
  snd (test_port_connectivity env host port (Some timeout) w)
  = Ret (true, message, elapsed) ->
  trace (fst (test_port_connectivity env host port (Some timeout) w))
  = (trace w ++ [EvSocket; EvSetTimeout timeout; EvConnectEx host port; EvSocketClose])%list.
Proof.
  rewrite test_port_connectivity_run. cbv zeta.
  destruct (env_socket env w) as [u|e]; cbn [snd].
  - destruct (timeout <? 0); cbn [snd]; [discriminate|].
    destruct (9223372036854775807 <? timeout * 1000000000); cbn [snd];
      [discriminate|].
    destruct (snd (env_connect_ex env _ host port)) as [code|e]; cbn [fst snd].
    + intros _. norm_trace. reflexivity.
    + intro H. exfalso. exact (tcp_recover_not_success _ _ _ _ H).
  - intro H. exfalso. exact (tcp_recover_not_success _ _ _ _ H).
Qed.

(** [test_service_connectivity] by the outcome of the tunnel start. *)
Lemma test_service_connectivity_run env self service timeout w :
  test_service_connectivity env self service timeout w =
  let t := match timeout with Some t => t | None => 10 end in
  match port_forward_service env self (ServiceTest.name service)
          (local_port_of service) (ServiceTest.port service) w with
  | (w1, Raise e) => (w1, probe_recover (Raise e))
  | (w1, Ret process) =>
      let call :=
        if String.eqb (ServiceTest.service_type service) "http" then
          test_http_service env
            ("http://localhost:" ++ PyStr.str_of_int (local_port_of service)
             ++ ServiceTest.test_endpoint service) (Some t)
        else test_port_connectivity env "localhost" (local_port_of service) (Some t) in
      (emit (EvWait process) (emit (EvTerminate process) (fst (call w1))),
       probe_recover (snd (call w1)))
  end.
Proof.
  unfold test_service_connectivity, test_service_connectivity_try. cbv zeta.
  destruct (port_forward_service env self _ _ _ w) as [w1 [process|e]].
  - match goal with
    | |- context [(if ?b then ?x else ?y) w1] =>
        destruct ((if b then x else y) w1) as [w2 [v|e]]
    end; cbn [fst snd probe_recover]; unfold try_except; cbn [handler].
    + reflexivity.
    + destruct (isinstance e "Exception"); reflexivity.
  - unfold try_except, probe_recover. cbn [handler].
    destruct (isinstance e "Exception"); reflexivity.
Qed.

(** X7.  The probe is never fatal in the ordinary sense: whatever the
    tunnel start, the HTTP client or the socket calls do, an exception that
    leaves [test_service_connectivity] is no instance of [Exception]; every
    ordinary failure is returned as a result triple. *)
Theorem probe_never_raises_exception
    (env : Env) (self : KubernetesMonitor) (service : ServiceTest.t)
    (timeout : option Z) (w : World) (e : exn) :
  snd (test_service_connectivity env self service timeout w) = Raise e ->
  isinstance e "Exception" = false.
Proof.
  rewrite test_service_connectivity_run. cbv zeta.
  assert (Hrec : forall r, probe_recover r = Raise e -> isinstance e "Exception" = false).
  { intros [v|e0] H; [discriminate H|]. unfold probe_recover in H.
    destruct (isinstance e0 "Exception") eqn:E; [discriminate H|].
    inversion H; subst. exact E. }
  destruct (port_forward_service env self _ _ _ w) as [w1 [process|e0]];
    cbn [snd]; apply Hrec.
Qed.

Lemma probe_never_raises_exception_witness :
  isinstance KeyboardInterrupt "Exception" = false.
Proof.
  apply (probe_never_raises_exception
           (tunnel_env (Raise KeyboardInterrupt) (Ret 0)) monitor frontend None w0).
  reflexivity.
Defined.

(** X8.  When the tunnel cannot be started ([Popen] raises an
    [Exception], as it does when kubectl is not installed), the probe
    returns failure with that exception's text and elapsed 0, and it did
    nothing but the start attempt: no settle delay, no network call, no
    release. *)
Theorem probe_tunnel_start_failure
    (env : Env) (self : KubernetesMonitor) (service : ServiceTest.t)
    (timeout : option Z) (w : World) (e : exn) :
  env_popen env w (port_forward_cmd (ServiceTest.name service) (local_port_of service)
                     (ServiceTest.port service)) = Raise e ->
  isinstance e "Exception" = true ->
  snd (test_service_connectivity env self service timeout w)
  = Ret (false, exn_str e, inject_Z 0)
  /\ new_events w (fst (test_service_connectivity env self service timeout w))
     = [tunnel_start self service].
Proof.
  intros Hpopen Hexc.
  rewrite test_service_connectivity_run, port_forward_service_run. cbv zeta.
  rewrite Hpopen. cbn [fst snd probe_recover]. rewrite Hexc.
  split; [reflexivity|]. apply new_events_app. reflexivity.
Qed.

Lemma probe_tunnel_start_failure_witness :
  snd (test_service_connectivity
         (scripted_env (Ret (0, ""))
            (Raise (mk_exn ["FileNotFoundError"; "OSError"; "Exception"; "BaseException"]
                      "No such file or directory: kubectl"))
            (Ret 200) (Ret tt) (Ret 0))
         monitor cart None w0)
  = Ret (false, "No such file or directory: kubectl", inject_Z 0)
  /\ new_events w0
       (fst (test_service_connectivity
               (scripted_env (Ret (0, ""))
                  (Raise (mk_exn ["FileNotFoundError"; "OSError"; "Exception"; "BaseException"]
                            "No such file or directory: kubectl"))
                  (Ret 200) (Ret tt) (Ret 0))
               monitor cart None w0))
     = [tunnel_start monitor cart].
Proof.
  apply (probe_tunnel_start_failure
           (scripted_env (Ret (0, ""))
              (Raise (mk_exn ["FileNotFoundError"; "OSError"; "Exception"; "BaseException"]
                        "No such file or directory: kubectl"))
              (Ret 200) (Ret tt) (Ret 0))
           monitor cart None w0
           (mk_exn ["FileNotFoundError"; "OSError"; "Exception"; "BaseException"]
              "No such file or directory: kubectl"));
    reflexivity.
Defined.

(* ===================================================================== *)
(** * The connectivity test run *)
(* ===================================================================== *)

Lemma added_refl keep w : added keep w w [].
Proof. exists []. rewrite app_nil_r. split; reflexivity. Qed.

Lemma added_trans keep w1 w2 w3 a b :
  added keep w1 w2 a -> added keep w2 w3 b -> added keep w1 w3 (a ++ b).
Proof.
  intros (e1 & H1 & F1) (e2 & H2 & F2). exists (e1 ++ e2)%list.
  rewrite H2, H1, <- app_assoc, filter_app, F1, F2. split; reflexivity.
Qed.

Lemma added_skip keep w ev : keep ev = false -> added keep w (emit ev w) [].
Proof. intro H. exists [ev]. simpl. rewrite H. split; reflexivity. Qed.

Lemma added_trace keep w w' evs :
  trace w' = (trace w ++ evs)%list -> added keep w w' (filter keep evs).
Proof. intro H. exists evs. split; [exact H | reflexivity]. Qed.

Lemma added_new_events keep w w' acts :
  added keep w w' acts -> filter keep (new_events w w') = acts.
Proof. intros (evs & H & F). rewrite (new_events_app _ _ _ H). exact F. Qed.

(** A [print], then [w'], then more. *)
Lemma added_print_before keep w w' acts :
  keep EvPrint = false -> added keep (emit EvPrint w) w' acts -> added keep w w' acts.
Proof.
  intros Hk H. change acts with ([] ++ acts)%list.
  eapply added_trans; [apply added_skip; exact Hk | exact H].
Qed.

Lemma added_print_after keep w w' acts :
  keep EvPrint = false -> added keep w w' acts -> added keep w (emit EvPrint w') acts.
Proof.
  intros Hk H. rewrite <- (app_nil_r acts).
  eapply added_trans; [exact H | apply added_skip; exact Hk].
Qed.

Lemma full_call_events_are_call_events service timeout :
  probe_call_events service timeout (full_call_events service timeout).
Proof.
  unfold probe_call_events, full_call_events, tcp_events.
  destruct (String.eqb (ServiceTest.service_type service) "http");
    [reflexivity | right; right; right; reflexivity].
Qed.

Lemma probe_call_events_no_print service timeout evs :
  probe_call_events service timeout evs -> without_prints evs = evs.
Proof.
  unfold probe_call_events, tcp_events.
  destruct (String.eqb (ServiceTest.service_type service) "http");
    [intros -> | intros [->|[->|[->| ->]]]]; reflexivity.
Qed.

Lemma probe_segment_no_print self service seg :
  probe_segment self service seg -> without_prints seg = seg.
Proof.
  intros [->|(process & call_evs & Hcall & ->)]; [reflexivity|].
  unfold without_prints. cbn [app filter not_print is_print negb tunnel_start].
  rewrite filter_app.
  fold (without_prints call_evs). rewrite (probe_call_events_no_print _ _ _ Hcall).
  reflexivity.
Qed.

Lemma probe_recover_success r message elapsed :
  probe_recover r = Ret (true, message, elapsed) -> r = Ret (true, message, elapsed).
Proof.
  destruct r as [v|e]; simpl; [intro H; exact H|].
  destruct (isinstance e "Exception"); discriminate.
Qed.

(** The events of one probe, and of one that passed. *)
Lemma probe_run env self service timeout w :
  let t := match timeout with Some t => t | None => 10 end in
  let run := test_service_connectivity env self service timeout w in
  (trace (fst run) = (trace w ++ [tunnel_start self service])%list
   \/ exists process call_evs,
        probe_call_events service t call_evs
        /\ trace (fst run)
           = (trace w ++ [tunnel_start self service; EvSpawned process; EvSleep 2]
                ++ call_evs
                ++ [EvTerminate process; EvWait process])%list)
  /\ (forall message elapsed,
        snd run = Ret (true, message, elapsed) ->
        exists process,
          trace (fst run)
          = (trace w ++ [tunnel_start self service; EvSpawned process; EvSleep 2]
               ++ full_call_events service t
               ++ [EvTerminate process; EvWait process])%list).
Proof.
  intros t run.
  pose proof (test_service_connectivity_trace env self service timeout w) as Htrace.
  cbv zeta in Htrace. fold t in Htrace. fold run in Htrace.
  fold (tunnel_start self service) in Htrace.
  pose proof (test_service_connectivity_run env self service timeout w) as Hrun.
  cbv zeta in Hrun. fold t in Hrun. fold run in Hrun.
  destruct (port_forward_service env self (ServiceTest.name service)
              (local_port_of service) (ServiceTest.port service) w)
    as [w1 [process|e]] eqn:Epf; cbn [snd] in Htrace.
  - destruct Htrace as (call_evs & Hcall & Htr).
    split; [right; exists process, call_evs; split; assumption|].
    intros message elapsed Hres. exists process.
    rewrite Hrun in Hres. cbn [snd] in Hres.
    apply probe_recover_success in Hres.
    assert (Hce : call_evs = full_call_events service t);
      [|rewrite Htr, Hce; reflexivity].
    assert (Hw1 : trace w1 = (trace w ++ [tunnel_start self service;
                                          EvSpawned process; EvSleep 2])%list).
    { rewrite port_forward_service_run in Epf. cbv zeta in Epf.
      destruct (env_popen env w _); inversion Epf; subst.
      norm_trace. reflexivity. }
    unfold probe_call_events in Hcall. unfold full_call_events.
    destruct (String.eqb (ServiceTest.service_type service) "http");
      [exact Hcall|].
    apply test_port_connectivity_success_trace in Hres.
    rewrite Hrun in Htr. cbn [fst] in Htr. revert Htr. norm_trace.
    rewrite Hres, Hw1. rewrite <- ?app_assoc. cbn [app].
    intro Htr. apply app_inv_head in Htr. injection Htr as Htr.
    symmetry. apply (app_inv_tail [EvTerminate process; EvWait process]).
    exact Htr.
  - split; [left; exact Htrace|].
    intros message elapsed Hres. rewrite Hrun in Hres. cbn [snd] in Hres.
    apply probe_recover_success in Hres. discriminate Hres.
Qed.

(** The segment of one probe with the default timeout. *)
Lemma probe_adds_segment env self service w :
  exists seg,
    added not_print w (fst (test_service_connectivity env self service None w)) seg
    /\ probe_segment self service seg
    /\ (forall message elapsed,
          snd (test_service_connectivity env self service None w)
          = Ret (true, message, elapsed) ->
          passed_segment self service seg).
Proof.
  destruct (probe_run env self service None w) as [Hseg Hpass]. cbv zeta in Hseg, Hpass.
  destruct Hseg as [Hseg|(process & call_evs & Hcall & Hseg)].
  - exists [tunnel_start self service].
    split; [exact (added_trace not_print _ _ _ Hseg)|].
    split; [left; reflexivity|].
    intros message elapsed Hres. destruct (Hpass _ _ Hres) as [process Hp].
    rewrite Hseg in Hp. apply app_inv_head in Hp. discriminate Hp.
  - assert (Hps : probe_segment self service
                    ([tunnel_start self service; EvSpawned process; EvSleep 2]
                     ++ call_evs ++ [EvTerminate process; EvWait process])%list)
      by (right; exists process, call_evs; split; [exact Hcall | reflexivity]).
    eexists. split; [|split; [exact Hps|]].
    + rewrite <- (probe_segment_no_print _ _ _ Hps).
      exact (added_trace not_print _ _ _ Hseg).
    + intros message elapsed Hres. destruct (Hpass _ _ Hres) as [process' Hp].
      rewrite Hseg in Hp. apply app_inv_head in Hp.
      exists process'. exact Hp.
Qed.

Lemma run_connectivity_tests_loop_segments env self targets : forall flag w b,
  snd (run_connectivity_tests_loop env self targets flag w) = Ret b ->
  exists segs,
    added not_print w (fst (run_connectivity_tests_loop env self targets flag w))
      (concat segs)
    /\ Forall2 (probe_segment self) targets segs
    /\ (b = true -> flag = true /\ Forall2 (passed_segment self) targets segs).
Proof.
  induction targets as [|service rest IH]; intros flag w b Hb.
  - simpl in Hb. inversion Hb; subst.
    exists []. split; [apply added_refl|]. split; [constructor|].
    intro H. split; [exact H | constructor].
  - cbn [run_connectivity_tests_loop] in Hb |- *.
    unfold bind, py_print in Hb |- *.
    destruct (env_print env w) as [u|e]; [|discriminate Hb].
    destruct (probe_adds_segment env self service (emit EvPrint w))
      as (seg & Hadd & Hps & Hpassed).
    destruct (test_service_connectivity env self service None (emit EvPrint w))
      as [w1 [[[success message] elapsed]|e]]; [|discriminate Hb].
    cbn [fst snd] in Hadd, Hpassed.
    destruct (env_print env w1) as [u'|e]; [|discriminate Hb].
    assert (Hrec : forall flag',
               snd (run_connectivity_tests_loop env self rest flag' (emit EvPrint w1)) = Ret b ->
               exists segs,
                 added not_print w
                   (fst (run_connectivity_tests_loop env self rest flag' (emit EvPrint w1)))
                   (concat (seg :: segs))
                 /\ Forall2 (probe_segment self) (service :: rest) (seg :: segs)
                 /\ (b = true -> flag' = true /\ Forall2 (passed_segment self) rest segs)).
    { intros flag' Hb'. destruct (IH flag' (emit EvPrint w1) b Hb') as (segs & Htr & Hall & Hok).
      exists segs. split; [|split; [constructor; assumption | exact Hok]].
      cbn [concat]. apply added_print_before; [reflexivity|].
      eapply added_trans; [exact Hadd|].
      apply added_print_before; [reflexivity | exact Htr]. }
    destruct success.
    + destruct (Hrec flag Hb) as (segs & Htr & Hall & Hok).
      exists (seg :: segs). split; [exact Htr|]. split; [exact Hall|].
      intro Ht. destruct (Hok Ht) as [Hflag Hal].
      split; [exact Hflag | constructor; [eapply Hpassed; reflexivity | exact Hal]].
    + destruct (Hrec false Hb) as (segs & Htr & Hall & Hok).
      exists (seg :: segs). split; [exact Htr|]. split; [exact Hall|].
      intro Ht. destruct (Hok Ht) as [Hflag _]. discriminate Hflag.
Qed.

(** [run_connectivity_tests] when it returns. *)
Lemma run_connectivity_tests_segments env self w b :
  snd (run_connectivity_tests env self w) = Ret b ->
  exists segs,
    added not_print w (fst (run_connectivity_tests env self w)) (concat segs)
    /\ Forall2 (probe_segment self) (services self) segs
    /\ (b = true -> Forall2 (passed_segment self) (services self) segs).
Proof.
  unfold run_connectivity_tests, bind, py_print, ret.
  destruct (env_print env w) as [u|e]; [|discriminate].
  destruct (env_print env (emit EvPrint w)) as [u'|e]; [|discriminate].
  pose proof (run_connectivity_tests_loop_segments env self (services self) true
                (emit EvPrint (emit EvPrint w))) as Hloop.
  destruct (run_connectivity_tests_loop env self (services self) true
              (emit EvPrint (emit EvPrint w))) as [w1 [b'|e]]; [|discriminate].
  cbn [fst snd] in Hloop.
  destruct (env_print env w1) as [u1|e]; [|discriminate].
  destruct (env_print env (emit EvPrint w1)) as [u2|e]; [|discriminate].
  cbn [fst snd]. intro Hb. inversion Hb; subst b'.
  destruct (Hloop b eq_refl) as (segs & Htr & Hall & Hok).
  exists segs. split; [|split; [exact Hall | intro Ht; apply Hok; exact Ht]].
  do 2 (apply added_print_after; [reflexivity|]).
  do 2 (apply added_print_before; [reflexivity|]).
  exact Htr.
Qed.

(** X9.  Whenever [run_connectivity_tests] returns, what it did apart from
    printing is one probe per service of the registry, in registry order,
    each with the default timeout of 10 seconds: a tunnel that started is
    the very process that is terminated and waited for before the next
    tunnel is started, so tunnels never overlap, and a failed probe does not
    stop the probes after it. *)
Theorem run_connectivity_tests_sequential
    (env : Env) (self : KubernetesMonitor) (w : World) (b : bool) :
  snd (run_connectivity_tests env self w) = Ret b ->
  exists segs,
    without_prints (new_events w (fst (run_connectivity_tests env self w)))
    = concat segs
    /\ Forall2 (probe_segment self) (services self) segs.
Proof.
  intro Hb.
  destruct (run_connectivity_tests_segments env self w b Hb) as (segs & Htr & Hall & _).
  exists segs. split; [exact (added_new_events _ _ _ _ Htr) | exact Hall].
Qed.

Lemma run_connectivity_tests_sequential_witness :
  exists segs,
    without_prints
      (new_events w0 (fst (run_connectivity_tests
                             (tunnel_env (Ret 200) (Ret 111)) monitor w0)))
    = concat segs
    /\ Forall2 (probe_segment monitor) (services monitor) segs.
Proof.
  apply (run_connectivity_tests_sequential
           (tunnel_env (Ret 200) (Ret 111)) monitor w0 false).
  vm_compute. reflexivity.
Defined.

(** X10.  [run_connectivity_tests] returns [True] only if for every service
    of the registry the tunnel started, the network check ran to its end
    (for a TCP target: socket, timeout, connect, close) and the process the
    tunnel start gave was terminated and waited for. *)
Theorem run_connectivity_tests_passed
    (env : Env) (self : KubernetesMonitor) (w : World) :
  snd (run_connectivity_tests env self w) = Ret true ->
  exists segs,
    without_prints (new_events w (fst (run_connectivity_tests env self w)))
    = concat segs
    /\ Forall2 (passed_segment self) (services self) segs.
Proof.
  intro Hb.
  destruct (run_connectivity_tests_segments env self w true Hb) as (segs & Htr & _ & Hok).
  exists segs. split; [exact (added_new_events _ _ _ _ Htr) | apply Hok; reflexivity].
Qed.

Lemma run_connectivity_tests_passed_witness :
  exists segs,
    without_prints
      (new_events w0 (fst (run_connectivity_tests
                             (tunnel_env (Ret 200) (Ret 0)) monitor w0)))
    = concat segs
    /\ Forall2 (passed_segment monitor) (services monitor) segs.
Proof.
  apply (run_connectivity_tests_passed (tunnel_env (Ret 200) (Ret 0)) monitor w0).
  vm_compute. reflexivity.
Defined.

(* ===================================================================== *)
(** * The service listing *)
(* ===================================================================== *)

(** The loop of [get_service_info] never raises: a line is only indexed
    after its fields have been counted. *)
Lemma get_service_info_loop_total lines : forall table_data,
  exists rows, get_service_info_loop lines table_data = Ret rows
               /\ (length rows <= length table_data + length lines)%nat.
Proof.
  induction lines as [|line rest IH]; intro table_data.
  - exists table_data. split; [reflexivity | simpl; lia].
  - cbn [get_service_info_loop length].
    assert (Hskip : exists rows,
               get_service_info_loop rest table_data = Ret rows
               /\ (length rows <= length table_data + S (length rest))%nat).
    { destruct (IH table_data) as (rows & Hr & Hl). exists rows. split; [exact Hr | lia]. }
    destruct (PyStr.truthy (PyStr.strip line) && negb (contains "kubernetes" line));
      [|exact Hskip].
    destruct (PyStr.split line) as [|a [|b [|c [|d more]]]]; try exact Hskip.
    destruct more as [|e more]; cbn -[get_service_info_loop String.eqb String.prefix].
    + match goal with
      | |- context [get_service_info_loop rest ?acc] =>
          destruct (IH acc) as (rows & Hr & Hl)
      end.
      exists rows. split; [exact Hr|]. rewrite length_app in Hl. simpl in Hl. lia.
    + match goal with
      | |- context [get_service_info_loop rest ?acc] =>
          destruct (IH acc) as (rows & Hr & Hl)
      end.
      exists rows. split; [exact Hr|]. rewrite length_app in Hl. simpl in Hl. lia.
Qed.

(** [get_service_info], print by print. *)
Lemma get_service_info_unfold env self w :
  get_service_info env self w =
  match env_print env w with
  | Raise e => (emit EvPrint w, Raise e)
  | Ret _ =>
      match env_print env (emit EvPrint w) with
      | Raise e => (after_header w, Raise e)
      | Ret _ =>
          match run_kubectl_command env self get_services_command (after_header w) with
          | (w1, Raise e) => (w1, Raise e)
          | (w1, Ret (false, _)) => (w1, Ret tt)
          | (w1, Ret (true, _)) =>
              (emit EvPrint w1,
               match env_print env w1 with
               | Ret _ => Ret tt
               | Raise e => Raise e
               end)
          end
      end
  end.
Proof.
  unfold get_service_info, bind, py_print, lift, ret, after_header.
  destruct (env_print env w); [|reflexivity].
  destruct (env_print env (emit EvPrint w)); [|reflexivity].
  destruct (run_kubectl_command env self _ _) as [w1 [[[|] output]|e]];
    try reflexivity.
  destruct (get_service_info_loop_total (PyStr.split_on newline output) [])
    as (rows & Hr & _).
  rewrite Hr. destruct (env_print env w1); reflexivity.
Qed.

Lemma run_kubectl_command_added keep env self command w :
  added keep w (fst (run_kubectl_command env self command w))
    (filter keep [EvRun command (kubeconfig_path self) 30]).
Proof. rewrite run_kubectl_command_run. apply added_trace. reflexivity. Qed.

Lemma run_kubectl_command_no_exception env self command w e :
  snd (run_kubectl_command env self command w) = Raise e ->
  isinstance e "Exception" = false.
Proof.
  rewrite run_kubectl_command_run. cbn [snd].
  destruct (snd (env_run env w command)) as [[rc out]|e0]; [discriminate|].
  destruct (isinstance e0 "subprocess.TimeoutExpired"); [discriminate|].
  destruct (isinstance e0 "Exception") eqn:E; [discriminate|].
  intro H. inversion H; subst. exact E.
Qed.

(** What [get_service_info] adds to the trace, prints apart: the services
    listing, or nothing when a header line could not be printed. *)
Lemma get_service_info_added keep env self w :
  keep EvPrint = false ->
  exists kubectl,
    added keep w (fst (get_service_info env self w)) (filter keep kubectl)
    /\ (kubectl = []
        \/ kubectl = [EvRun get_services_command (kubeconfig_path self) 30])
    /\ (forall u, snd (get_service_info env self w) = Ret u ->
                  kubectl = [EvRun get_services_command (kubeconfig_path self) 30])
    /\ (console_ok env ->
        kubectl = [EvRun get_services_command (kubeconfig_path self) 30]
        /\ forall e, snd (get_service_info env self w) = Raise e ->
                     isinstance e "Exception" = false).
Proof.
  intro Hk. rewrite get_service_info_unfold.
  destruct (env_print env w) as [u0|e0] eqn:E0.
  - destruct (env_print env (emit EvPrint w)) as [u1|e1] eqn:E1.
    + pose proof (run_kubectl_command_added keep env self get_services_command
                    (after_header w)) as Hrun.
      pose proof (run_kubectl_command_no_exception env self get_services_command
                    (after_header w)) as Hexc.
      exists [EvRun get_services_command (kubeconfig_path self) 30].
      assert (Hhead : forall w1 acts, added keep (after_header w) w1 acts ->
                                      added keep w w1 acts).
      { intros w1 acts H. do 2 (apply added_print_before; [exact Hk|]). exact H. }
      destruct (run_kubectl_command env self get_services_command (after_header w))
        as [w1 [[[|] output]|e]]; cbn [fst snd] in Hrun, Hexc |- *.
      * split; [apply added_print_after; [exact Hk|]; apply Hhead; exact Hrun|].
        split; [right; reflexivity|]. split; [reflexivity|].
        intro Hok. split; [reflexivity|]. rewrite Hok. discriminate.
      * split; [apply Hhead; exact Hrun|].
        split; [right; reflexivity|]. split; [reflexivity|].
        intro Hok. split; [reflexivity | discriminate].
      * split; [apply Hhead; exact Hrun|].
        split; [right; reflexivity|]. split; [reflexivity|].
        intro Hok. split; [reflexivity|].
        intros e0 He0. apply Hexc. inversion He0. reflexivity.
    + exists []. cbn [fst snd]. split.
      * unfold after_header. do 2 (apply added_print_after; [exact Hk|]).
        apply added_refl.
      * split; [left; reflexivity|]. split; [discriminate|].
        intro Hok. rewrite Hok in E1. discriminate E1.
  - exists []. cbn [fst snd]. split.
    + apply added_print_after; [exact Hk | apply added_refl].
    + split; [left; reflexivity|]. split; [discriminate|].
      intro Hok. rewrite Hok in E0. discriminate E0.
Qed.

(** X11.  [get_service_info] does nothing but print and run the services
    listing, at most once; building its table never raises, however short or
    long the lines of the listing are; and on a console that takes its
    prints it runs the listing exactly once and no exception that leaves it
    is an instance of [Exception]. *)
Theorem get_service_info_never_fails
    (env : Env) (self : KubernetesMonitor) (w : World) :
  (without_prints (new_events w (fst (get_service_info env self w))) = []
   \/ without_prints (new_events w (fst (get_service_info env self w)))
      = [EvRun get_services_command (kubeconfig_path self) 30])
  /\ (forall output table_data,
        exists rows,
          get_service_info_loop (PyStr.split_on newline output) table_data = Ret rows)
  /\ (console_ok env ->
      without_prints (new_events w (fst (get_service_info env self w)))
      = [EvRun get_services_command (kubeconfig_path self) 30]
      /\ forall e, snd (get_service_info env self w) = Raise e ->
                   isinstance e "Exception" = false).
Proof.
  destruct (get_service_info_added not_print env self w eq_refl)
    as (kubectl & Hadd & Hcases & _ & Hok).
  apply added_new_events in Hadd. fold (without_prints (new_events w
    (fst (get_service_info env self w)))) in Hadd.
  split; [|split].
  - destruct Hcases as [->| ->]; [left | right]; exact Hadd.
  - intros output table_data.
    destruct (get_service_info_loop_total (PyStr.split_on newline output) table_data)
      as (rows & Hr & _).
    exists rows. exact Hr.
  - intro Hc. destruct (Hok Hc) as [-> Hexc]. split; [exact Hadd | exact Hexc].
Qed.

Lemma get_service_info_never_fails_witness :
  without_prints
    (new_events w0 (fst (get_service_info
                           (kubectl_prints "frontend ClusterIP 10.96.0.1 <none>")
                           monitor w0)))
  = [EvRun get_services_command (kubeconfig_path monitor) 30].
Proof.
  refine (proj1 (proj2 (proj2 (get_service_info_never_fails
                                 (kubectl_prints "frontend ClusterIP 10.96.0.1 <none>")
                                 monitor w0)) _)).
  intro w. reflexivity.
Defined.

(* ===================================================================== *)
(** * The full check *)
(* ===================================================================== *)

Lemma get_pod_status_added keep env self w :
  keep EvPrint = false ->
  added keep w (fst (get_pod_status env self w))
    (filter keep [EvRun get_pods_command (kubeconfig_path self) 30]).
Proof.
  intro Hk. rewrite get_pod_status_unfold. fold get_pods_command.
  pose proof (run_kubectl_command_added keep env self get_pods_command w) as Hrun.
  destruct (run_kubectl_command env self get_pods_command w)
    as [w1 [[[|] output]|e]]; cbn [fst] in Hrun |- *; try exact Hrun.
  apply added_print_after; [exact Hk | exact Hrun].
Qed.

(** What [check_pods_health] adds to the trace, prints apart: the pods
    listing, or nothing when a header line could not be printed. *)
Lemma check_pods_health_added keep env self w :
  keep EvPrint = false ->
  exists kubectl,
    added keep w (fst (check_pods_health env self w)) (filter keep kubectl)
    /\ (kubectl = []
        \/ kubectl = [EvRun get_pods_command (kubeconfig_path self) 30])
    /\ (forall b, snd (check_pods_health env self w) = Ret b ->
                  kubectl = [EvRun get_pods_command (kubeconfig_path self) 30]).
Proof.
  intro Hk. rewrite check_pods_health_unfold.
  destruct (env_print env w) as [u0|e0].
  - destruct (env_print env (emit EvPrint w)) as [u1|e1].
    + pose proof (get_pod_status_added keep env self (after_header w) Hk) as Hrun.
      exists [EvRun get_pods_command (kubeconfig_path self) 30].
      assert (Hhead : forall w1 acts, added keep (after_header w) w1 acts ->
                                      added keep w w1 acts).
      { intros w1 acts H. do 2 (apply added_print_before; [exact Hk|]). exact H. }
      split; [|split; [right; reflexivity | reflexivity]].
      destruct (get_pod_status env self (after_header w)) as [w1 [[|pod rest]|e]];
        cbn [fst] in Hrun |- *; try (apply Hhead; exact Hrun).
      destruct (check_pods_health_of (pod :: rest)); [|apply Hhead; exact Hrun].
      destruct (env_print env w1); cbn [fst];
        repeat (apply added_print_after; [exact Hk|]); apply Hhead; exact Hrun.
    + exists []. cbn [fst snd]. split.
      * unfold after_header. do 2 (apply added_print_after; [exact Hk|]).
        apply added_refl.
      * split; [left; reflexivity | discriminate].
  - exists []. cbn [fst snd]. split.
    + apply added_print_after; [exact Hk | apply added_refl].
    + split; [left; reflexivity | discriminate].
Qed.

Lemma bind_returns {A B} (c : M A) (k : A -> M B) (w : World) (y : B) :
  snd (bind c k w) = Ret y ->
  exists x, snd (c w) = Ret x
            /\ snd (k x (fst (c w))) = Ret y
            /\ fst (bind c k w) = fst (k x (fst (c w))).
Proof.
  unfold bind. destruct (c w) as [w1 [x|e]]; [|discriminate].
  intro H. exists x. repeat split. exact H.
Qed.

Lemma added_bind keep {A B} (c : M A) (k : A -> M B) (w : World) :
  added keep w (fst (c w)) [] ->
  (forall x, snd (c w) = Ret x -> added keep (fst (c w)) (fst (k x (fst (c w)))) []) ->
  added keep w (fst (bind c k w)) [].
Proof.
  unfold bind. destruct (c w) as [w1 [x|e]]; cbn [fst snd]; intros H1 H2;
    [|exact H1].
  change (@nil event) with (@nil event ++ [])%list.
  eapply added_trans; [exact H1 | apply (H2 x eq_refl)].
Qed.

Lemma added_py_print keep env w :
  keep EvPrint = false -> added keep w (fst (py_print env w)) [].
Proof. intro Hk. apply added_skip. exact Hk. Qed.

Lemma added_py_print_before keep env w w' acts :
  keep EvPrint = false ->
  added keep (fst (py_print env w)) w' acts -> added keep w w' acts.
Proof. intros Hk H. apply added_print_before; assumption. Qed.

Lemma added_py_print_after keep env w w' acts :
  keep EvPrint = false ->
  added keep w w' acts -> added keep w (fst (py_print env w')) acts.
Proof. intros Hk H. apply (added_print_after keep w w' acts Hk H). Qed.

Lemma get_service_info_quiet env self w :
  added is_probe_event w (fst (get_service_info env self w)) [].
Proof.
  destruct (get_service_info_added is_probe_event env self w eq_refl)
    as (kubectl & Hadd & [->| ->] & _); exact Hadd.
Qed.

Lemma check_pods_health_quiet env self w :
  added is_probe_event w (fst (check_pods_health env self w)) [].
Proof.
  destruct (check_pods_health_added is_probe_event env self w eq_refl)
    as (kubectl & Hadd & [->| ->] & _); exact Hadd.
Qed.

(** A tail of prints, whatever they answer, adds nothing else. *)
Ltac quiet_prints :=
  repeat first
    [ apply added_refl
    | apply added_py_print; reflexivity
    | apply added_bind; [apply added_py_print; reflexivity | intros ? _]
    | match goal with
      | |- context [if negb ?b then _ else _] => is_var b; destruct b; cbn [negb]
      end ].

(** One step along a computation that returns. *)
Ltac returns_step H :=
  apply bind_returns in H; destruct H as (? & _ & H & _);
  cbv beta iota in H.

(** X12.  The full check gates the probes.  When the kubeconfig file is
    missing it only prints: it runs no command, starts no tunnel, never
    returns [True], and returns [False] when the console takes its prints.
    When the pod check does not return [True] it starts no tunnel, makes no
    network call, and does not return [True]. *)
Theorem run_full_check_gates_probes
    (env : Env) (self : KubernetesMonitor) (kubeconfig_exists : bool) (w : World) :
  (kubeconfig_exists = false ->
     without_prints (new_events w (fst (run_full_check env self kubeconfig_exists w)))
     = []
     /\ snd (run_full_check env self kubeconfig_exists w) <> Ret true
     /\ (console_ok env ->
         snd (run_full_check env self kubeconfig_exists w) = Ret false))
  /\ (snd (check_pods_health env self
             (fst (get_service_info env self (after_banner w)))) <> Ret true ->
      filter is_probe_event
        (new_events w (fst (run_full_check env self kubeconfig_exists w))) = []
      /\ snd (run_full_check env self kubeconfig_exists w) <> Ret true).
Proof.
  assert (Hmissing : forall keep, keep EvPrint = false ->
            added keep w (fst (run_full_check env self false w)) []).
  { intros keep Hk. unfold run_full_check. cbn [negb].
    repeat first
      [ apply added_refl
      | apply added_py_print; exact Hk
      | apply added_bind; [apply added_py_print; exact Hk | intros ? _] ]. }
  assert (Hnot : snd (run_full_check env self false w) <> Ret true).
  { intro H. unfold run_full_check in H. cbn [negb] in H.
    do 5 returns_step H. discriminate H. }
  split.
  - intros ->. split; [|split].
    + exact (added_new_events _ _ _ _ (Hmissing not_print eq_refl)).
    + exact Hnot.
    + intro Hok. unfold run_full_check, bind, py_print, ret. cbn [negb].
      rewrite !Hok. reflexivity.
  - intro Hpods. destruct kubeconfig_exists;
      [|split; [exact (added_new_events _ _ _ _ (Hmissing is_probe_event eq_refl))
               | exact Hnot]].
    split.
    + apply (added_new_events is_probe_event). unfold run_full_check. cbn [negb].
      do 4 (apply added_bind; [apply added_py_print; reflexivity | intros ? _]).
      apply added_bind; [apply get_service_info_quiet | intros u _].
      apply added_bind; [apply check_pods_health_quiet | intros pods_healthy Hph].
      destruct pods_healthy; [exfalso; apply Hpods; exact Hph|].
      cbv beta iota.
      apply added_bind.
      * quiet_prints.
      * intros connectivity_tests_passed _. cbn [andb negb]. quiet_prints.
    + intro H. unfold run_full_check in H. cbn [negb] in H.
      do 5 returns_step H.
      apply bind_returns in H. destruct H as (pods_healthy & Hph & H & _).
      cbv beta iota in H.
      destruct pods_healthy; [apply Hpods; exact Hph|].
      apply bind_returns in H. destruct H as (connectivity_tests_passed & _ & H & _).
      cbn [andb negb] in H. cbv beta iota in H.
      do 5 returns_step H. discriminate H.
Qed.

Lemma run_full_check_gates_probes_witness :
  snd (run_full_check (kubectl_prints "svcA 2/2 Running 0 5d") monitor false w0)
  = Ret false
  /\ filter is_probe_event
       (new_events w0 (fst (run_full_check (kubectl_prints "svcA 1/2 Running 0 5d")
                              monitor true w0))) = [].
Proof.
  split.
  - refine (proj2 (proj2 (proj1 (run_full_check_gates_probes
                                   (kubectl_prints "svcA 2/2 Running 0 5d")
                                   monitor false w0) eq_refl)) _).
    intro w. reflexivity.
  - refine (proj1 (proj2 (run_full_check_gates_probes
                            (kubectl_prints "svcA 1/2 Running 0 5d") monitor true w0) _)).
    vm_compute. discriminate.
Defined.

(** X13.  The full check returns [True] only if the kubeconfig file exists
    and, prints apart, it did exactly this, in this order: the services
    listing, the pods listing, and for every service of the registry a probe
    whose tunnel started, whose network check ran to its end and whose
    tunnel process was terminated and waited for. *)
Theorem run_full_check_true_trace
    (env : Env) (self : KubernetesMonitor) (kubeconfig_exists : bool) (w : World) :
  snd (run_full_check env self kubeconfig_exists w) = Ret true ->
  kubeconfig_exists = true
  /\ exists segs,
       without_prints
         (new_events w (fst (run_full_check env self kubeconfig_exists w)))
       = EvRun get_services_command (kubeconfig_path self) 30
         :: EvRun get_pods_command (kubeconfig_path self) 30
         :: concat segs
       /\ Forall2 (passed_segment self) (services self) segs.
Proof.
  intro H. unfold run_full_check in H |- *.
  destruct kubeconfig_exists; cbn [negb] in H |- *;
    [|do 5 returns_step H; discriminate H].
  split; [reflexivity|].
  do 4 (apply bind_returns in H; destruct H as (? & _ & H & ->);
        cbv beta iota in H |- *).
  apply bind_returns in H. destruct H as (u & Hgsi & H & ->).
  cbv beta iota in H |- *.
  apply bind_returns in H. destruct H as (pods_healthy & Hcph & H & ->).
  cbv beta iota in H |- *.
  destruct pods_healthy.
  - apply bind_returns in H. destruct H as (passed & Hrct & H & ->).
    cbv beta iota in H |- *.
    destruct passed; cbn [andb negb] in H |- *;
      [|do 5 returns_step H; discriminate H].
    do 5 (apply bind_returns in H; destruct H as (? & _ & H & ->);
          cbv beta iota in H |- *).
    destruct (run_connectivity_tests_segments _ _ _ _ Hrct) as (segs & Hsegs & _ & Hok).
    exists segs. split; [|apply Hok; reflexivity].
    apply (added_new_events not_print).
    change (fst (ret true ?x)) with x.
    do 5 (apply (added_py_print_after not_print env); [reflexivity|]).
    do 4 (apply (added_py_print_before not_print env); [reflexivity|]).
    match type of Hgsi with
    | snd (get_service_info env self ?w4) = _ =>
        destruct (get_service_info_added not_print env self w4 eq_refl)
          as (k1 & Hadd1 & _ & Hk1 & _)
    end.
    rewrite (Hk1 _ Hgsi) in Hadd1.
    match type of Hcph with
    | snd (check_pods_health env self ?w5) = _ =>
        destruct (check_pods_health_added not_print env self w5 eq_refl)
          as (k2 & Hadd2 & _ & Hk2)
    end.
    rewrite (Hk2 _ Hcph) in Hadd2.
    exact (added_trans _ _ _ _ _ _ Hadd1 (added_trans _ _ _ _ _ _ Hadd2 Hsegs)).
  - apply bind_returns in H. destruct H as (passed & _ & H & _).
    cbn [andb negb] in H. cbv beta iota in H.
    do 5 returns_step H. discriminate H.
Qed.

Lemma run_full_check_true_trace_witness :
  true = true
  /\ exists segs,
       without_prints
         (new_events w0 (fst (run_full_check (kubectl_prints "svcA 2/2 Running 0 5d")
                                monitor true w0)))
       = EvRun get_services_command (kubeconfig_path monitor) 30
         :: EvRun get_pods_command (kubeconfig_path monitor) 30
         :: concat segs
       /\ Forall2 (passed_segment monitor) (services monitor) segs.
Proof.
  apply (run_full_check_true_trace
           (kubectl_prints "svcA 2/2 Running 0 5d") monitor true w0).
  vm_compute. reflexivity.
Defined.
